(** * Campus Portal API: a shallow embedding of [main.py] and [schemas.py]

    The route handlers of [main.py] are modelled as computations in a small
    state-and-exception monad over a document store; stored documents are
    finite maps from field names to Python values, collections are lists of
    documents in natural (insertion) order. *)

From Stdlib Require Import ZArith NArith Ascii String.
From Stdlib Require Import Floats.SpecFloat.
From Stdlib Require Import Sorting.Sorted.
From stdpp Require Import base option list strings pretty gmap fin_maps.

Local Open Scope string_scope.
Local Open Scope list_scope.
Local Open Scope Z_scope.

(** ** Python [float]: IEEE 754 binary64 *)

Module Float64.

Definition prec : Z := 53.
Definition emax : Z := 1024.

Abbreviation float := spec_float.

Definition of_Z (z : Z) : float := binary_normalize prec emax z 0 false.
Definition fmul : float → float → float := SFmul prec emax.
Definition fdiv : float → float → float := SFdiv prec emax.
Definition fleb : float → float → bool := SFleb.

Definition zero : float := S754_zero false.
Definition one : float := Eval vm_compute in of_Z 1.
Definition hundred : float := Eval vm_compute in of_Z 100.

(** The integer [z] as an unrounded binary float. *)
Definition exact_of_Z (z : Z) : float :=
  match z with
  | Z0 => S754_zero false
  | Zpos p => S754_finite false p 0
  | Zneg p => S754_finite true p 0
  end.

(** The double nearest to the exact quotient [a / b], for [b <> 0]. *)
Definition true_quotient (a b : Z) : float :=
  fdiv (exact_of_Z a) (exact_of_Z b).

(** [a / b] on Python ints ([long_true_divide]): the exact quotient,
    rounded once. [None] is [ZeroDivisionError]. *)
Definition int_true_div (a b : Z) : option float :=
  if b =? 0 then None else Some (true_quotient a b).

(** Quotient of [n] by [d] (both non-negative, [d > 0]) rounded to the
    nearest integer, ties to even. *)
Definition div_half_even (n d : Z) : Z :=
  let q := n / d in
  let r := n mod d in
  match 2 * r ?= d with
  | Lt => q
  | Gt => q + 1
  | Eq => if Z.even q then q else q + 1
  end.

(** [round(x, 2)] on a float ([double_round] of CPython): the exact value
    of [x] is rounded to two decimals, ties to even, and the decimal
    [n / 100] so obtained is converted back to the nearest double. Zeros,
    infinities and NaN round to themselves. *)
Definition round2 (x : float) : float :=
  match x with
  | S754_finite s m e =>
      let n := if 0 <=? e then 100 * Zpos m * 2 ^ e
               else div_half_even (100 * Zpos m) (2 ^ (- e)) in
      match n with
      | Zpos p => fdiv (S754_finite s p 0) (S754_finite false 100 0)
      | _ => S754_zero s
      end
  | _ => x
  end.

#[global] Instance float_eq_dec : EqDecision float.
Proof. solve_decision. Defined.

End Float64.

Import Float64.

(** ** Python values held by documents and payloads *)

(** [datetime.date] and naive [datetime.datetime]. *)
Record date := mk_date { year : N; month : N; day : N }.
Record datetime := mk_datetime {
  dt_date : date; hour : N; minute : N; second : N; microsecond : N }.

(** [bson.ObjectId] as the store generates it: its twelve bytes read as a
    big-endian number. *)
Definition ObjectId := N.

Inductive value :=
| VNone
| VBool (b : bool)
| VInt (z : Z)
| VFloat (f : float)
| VStr (s : string)
| VOid (o : ObjectId)
| VOidBytes (bytes : list N)
| VDate (d : date)
| VDatetime (t : datetime).

#[global] Instance date_eq_dec : EqDecision date.
Proof. solve_decision. Defined.
#[global] Instance datetime_eq_dec : EqDecision datetime.
Proof. solve_decision. Defined.
#[global] Instance value_eq_dec : EqDecision value.
Proof. solve_decision. Defined.

(** A Python [dict] with string keys, and a BSON document alike. *)
Abbreviation dict := (gmap string value).

(** ** Text forms of values *)

Definition digit_char (n : N) : ascii :=
  ascii_of_N (N.modulo n 10 + 48).

(** [w] decimal digits of [n], zero padded (["%0wd"] for [n < 10 ^ w]). *)
Fixpoint dec_digits (w : nat) (n : N) : string :=
  match w with
  | O => ""
  | S w' => dec_digits w' (N.div n 10) +:+ String (digit_char n) ""
  end.

Definition hex_char (n : N) : ascii :=
  let d := N.modulo n 16 in
  if N.ltb d 10 then ascii_of_N (d + 48) else ascii_of_N (d + 87).

Fixpoint hex_digits (w : nat) (n : N) : string :=
  match w with
  | O => ""
  | S w' => hex_digits w' (N.div n 16) +:+ String (hex_char n) ""
  end.

(** [date.isoformat()]. *)
Definition date_isoformat (d : date) : string :=
  dec_digits 4 (year d) +:+ "-" +:+ dec_digits 2 (month d) +:+ "-"
    +:+ dec_digits 2 (day d).

Definition time_text (t : datetime) : string :=
  dec_digits 2 (hour t) +:+ ":" +:+ dec_digits 2 (minute t) +:+ ":"
    +:+ dec_digits 2 (second t)
    +:+ (if N.eqb (microsecond t) 0 then ""
         else "." +:+ dec_digits 6 (microsecond t)).

(** [datetime.isoformat(sep)] of a naive datetime. *)
Definition datetime_isoformat (sep : string) (t : datetime) : string :=
  date_isoformat (dt_date t) +:+ sep +:+ time_text t.

(** [str(ObjectId)]: 24 lowercase hexadecimal digits. *)
Definition oid_str (o : ObjectId) : string := hex_digits 24 o.

Definition hex_val (c : ascii) : option N :=
  let n := N_of_ascii c in
  if N.leb 48 n && N.leb n 57 then Some (n - 48)%N
  else if N.leb 97 n && N.leb n 102 then Some (n - 87)%N
  else if N.leb 65 n && N.leb n 70 then Some (n - 55)%N
  else None.

Fixpoint hex_parse (acc : N) (s : string) : option N :=
  match s with
  | EmptyString => Some acc
  | String c s' =>
      match hex_val c with
      | Some d => hex_parse (acc * 16 + d)%N s'
      | None => None
      end
  end.

(** The identifier a canonical id string, 24 hexadecimal digits, denotes. *)
Definition ObjectId_of_str (id_str : string) : option ObjectId :=
  if Nat.eqb (String.length id_str) 24 then hex_parse 0%N id_str else None.

(** [Py_ISSPACE]: space, tab, line feed, vertical tab, form feed, carriage
    return. *)
Definition is_space (c : ascii) : bool :=
  let n := N_of_ascii c in
  N.eqb n 32 || (N.leb 9 n && N.leb n 13).

(** [bytes.fromhex(s)]: pairs of hexadecimal digits, with whitespace skipped
    before each pair; [None] is [ValueError]. *)
Fixpoint bytes_fromhex (s : string) : option (list N) :=
  match s with
  | EmptyString => Some []
  | String c s' =>
      if is_space c then bytes_fromhex s'
      else
        match hex_val c, s' with
        | Some top, String c2 s'' =>
            match hex_val c2 with
            | Some bot =>
                match bytes_fromhex s'' with
                | Some bs => Some ((top * 16 + bot)%N :: bs)
                | None => None
                end
            | None => None
            end
        | _, _ => None
        end
  end.

(** Bytes read as a big-endian number. *)
Definition be_value (bytes : list N) : N :=
  foldl (λ acc b, (acc * 256 + b)%N) 0%N bytes.

(** [ObjectId(id_str)] on a [str]: the string must have 24 characters and
    pass [bytes.fromhex]; anything else raises [InvalidId] ([None] here).
    Where whitespace was skipped the object holds fewer than twelve
    bytes. *)
Definition ObjectId_parse (id_str : string) : option value :=
  if Nat.eqb (String.length id_str) 24 then
    match bytes_fromhex id_str with
    | Some bs =>
        Some (if Nat.eqb (length bs) 12 then VOid (be_value bs)
              else VOidBytes bs)
    | None => None
    end
  else None.

(** [isinstance(v, (datetime, date))]. *)
Definition is_temporal (v : value) : bool :=
  match v with
  | VDate _ | VDatetime _ => true
  | _ => false
  end.

(** [v.isoformat()] for a temporal [v]; other values are left alone. *)
Definition isoformat (v : value) : value :=
  match v with
  | VDate d => VStr (date_isoformat d)
  | VDatetime t => VStr (datetime_isoformat "T" t)
  | _ => v
  end.

(** [isinstance(v, (int, float))]; [bool] is a subclass of [int]. *)
Definition is_number (v : value) : bool :=
  match v with
  | VBool _ | VInt _ | VFloat _ => true
  | _ => false
  end.

(** [float(v)] for a number [v] (BSON integers are at most 64 bits wide, so
    the conversion cannot overflow). *)
Definition to_float (v : value) : float :=
  match v with
  | VBool true => one
  | VInt z => of_Z z
  | VFloat f => f
  | _ => zero
  end.

(** ** The document store *)

Inductive coll := campususer | event | attendancerecord | attendanceoverride.

Record Store := mk_store {
  c_campususer : list dict;
  c_event : list dict;
  c_attendancerecord : list dict;
  c_attendanceoverride : list dict }.

Definition get_coll (c : coll) (s : Store) : list dict :=
  match c with
  | campususer => c_campususer s
  | event => c_event s
  | attendancerecord => c_attendancerecord s
  | attendanceoverride => c_attendanceoverride s
  end.

Definition set_coll (c : coll) (l : list dict) (s : Store) : Store :=
  match c with
  | campususer => mk_store l (c_event s) (c_attendancerecord s) (c_attendanceoverride s)
  | event => mk_store (c_campususer s) l (c_attendancerecord s) (c_attendanceoverride s)
  | attendancerecord => mk_store (c_campususer s) (c_event s) l (c_attendanceoverride s)
  | attendanceoverride => mk_store (c_campususer s) (c_event s) (c_attendancerecord s) l
  end.

(** A query document [{k1: v1, ...}]: every listed field must be present
    with exactly that value. The handlers only query on strings and
    ObjectIds, for which the store's equality is plain equality. *)
Definition query := list (string * value).

Definition matches (q : query) (d : dict) : bool :=
  forallb (λ kv, bool_decide (d !! kv.1 = Some kv.2)) q.

(** [find_one]: the first match in natural order. *)
Definition coll_find_one (q : query) (c : list dict) : option dict :=
  List.find (matches q) c.

(** [count_documents]. *)
Definition coll_count (q : query) (c : list dict) : Z :=
  Z.of_nat (length (List.filter (matches q) c)).

(** A datetime as the store keeps it: to the millisecond. *)
Definition to_millis (t : datetime) : datetime :=
  mk_datetime (dt_date t) (hour t) (minute t) (second t)
              (N.div (microsecond t) 1000 * 1000).

(** The stored form of a value the store writes. *)
Definition to_bson (v : value) : value :=
  match v with
  | VDatetime t => VDatetime (to_millis t)
  | _ => v
  end.

(** The stored form of the fields of a document or of an update. *)
Definition stored (upd : dict) : dict := to_bson <$> upd.

(** [update_one(q, {"$set": upd})]: the first match gets the fields of [upd]
    in their stored form, its other fields stay; yields [matched_count]. *)
Fixpoint coll_update_one (q : query) (upd : dict) (c : list dict)
  : Z * list dict :=
  match c with
  | [] => (0, [])
  | d :: c' =>
      if matches q d then (1, (stored upd ∪ d) :: c')
      else let r := coll_update_one q upd c' in (r.1, d :: r.2)
  end.

(** [delete_one(q)]: removes the first match; yields [deleted_count]. *)
Fixpoint coll_delete_one (q : query) (c : list dict) : Z * list dict :=
  match c with
  | [] => (0, [])
  | d :: c' =>
      if matches q d then (1, c')
      else let r := coll_delete_one q c' in (r.1, d :: r.2)
  end.

Definition oid_of (d : dict) : N :=
  match d !! "_id" with
  | Some (VOid o) => o
  | _ => 0%N
  end.

(** The identifier the store generates for the next insert: one that no
    document of the collection carries. *)
Definition fresh_oid (c : list dict) : ObjectId :=
  N.succ (foldr (λ d m, N.max (oid_of d) m) 0%N c).

(** [insert_one(d)]: [d] is appended, in its stored form, under a generated
    [_id]. *)
Definition coll_insert_one (d : dict) (c : list dict) : ObjectId * list dict :=
  let i := fresh_oid c in (i, c ++ [<["_id" := VOid i]> (stored d)]).

Fixpoint insert_by (le : dict → dict → bool) (x : dict) (l : list dict)
  : list dict :=
  match l with
  | [] => [x]
  | y :: l' => if le x y then x :: l else y :: insert_by le x l'
  end.

(** ** Exceptions, store operations and the handler monad *)

Inductive exn :=
| HTTPException (status_code : Z) (detail : string)
| AttributeError (attr : string)
| KeyError (key : string)
| InvalidId
| ValidationError (model : string)
| StoreUnavailable
| ZeroDivisionError.

Inductive op :=
| OpFindOne (c : coll)
| OpFind (c : coll)
| OpCount (c : coll)
| OpInsertOne (c : coll)
| OpUpdateOne (c : coll)
| OpDeleteOne (c : coll).

(** The module-level handle [db] ([None] when no connection is configured)
    and the store operations issued so far, oldest first. *)
Record World := mk_world { db : option Store; trace : list op }.

Inductive outcome (A : Type) :=
| Return (a : A)
| Raise (e : exn).
Arguments Return {A} a.
Arguments Raise {A} e.

Definition M (A : Type) : Type := World → outcome A * World.

Definition ret {A} (a : A) : M A := λ w, (Return a, w).
Definition raise {A} (e : exn) : M A := λ w, (Raise e, w).
Definition bind {A B} (m : M A) (f : A → M B) : M B :=
  λ w, match m w with
       | (Return a, w') => f a w'
       | (Raise e, w') => (Raise e, w')
       end.

Declare Scope handler_scope.
Delimit Scope handler_scope with handler.
Notation "x <- m ;; k" := (bind m (λ x, k))
  (at level 100, m at next level, k at level 200, right associativity)
  : handler_scope.
Notation "m ;; k" := (bind m (λ _, k))
  (at level 100, k at level 200, right associativity) : handler_scope.
Local Open Scope handler_scope.

(** [db is None]. *)
Definition db_is_None : M bool :=
  λ w, (Return (match db w with None => true | Some _ => false end), w).

(** The attribute access [db.<c>]; on [None] it raises [AttributeError]. *)
Definition collection (c : coll) : M unit :=
  λ w, match db w with
       | None => (Raise (AttributeError "NoneType"), w)
       | Some _ => (Return tt, w)
       end.

(** One operation on collection [c]: [f] computes its result and the new
    content of the collection. *)
Definition store_op {A} (o : op) (c : coll) (f : list dict → A * list dict)
  : M A :=
  λ w, match db w with
       | None => (Raise (AttributeError "NoneType"), w)
       | Some s =>
           let r := f (get_coll c s) in
           (Return r.1, mk_world (Some (set_coll c r.2 s)) (trace w ++ [o]))
       end.

Definition find_one (c : coll) (q : query) : M (option dict) :=
  store_op (OpFindOne c) c (λ l, (coll_find_one q l, l)).

Definition count_documents (c : coll) (q : query) : M Z :=
  store_op (OpCount c) c (λ l, (coll_count q l, l)).

Definition update_one (c : coll) (q : query) (upd : dict) : M Z :=
  store_op (OpUpdateOne c) c (coll_update_one q upd).

Definition delete_one (c : coll) (q : query) : M Z :=
  store_op (OpDeleteOne c) c (coll_delete_one q).

Definition insert_one (c : coll) (d : dict) : M ObjectId :=
  store_op (OpInsertOne c) c (coll_insert_one d).

(** [d[k]]. *)
Definition getitem (d : dict) (k : string) : M value :=
  match d !! k with
  | Some v => ret v
  | None => raise (KeyError k)
  end.

(** [ObjectId(s)] outside a [try]. *)
Definition ObjectId_new (s : string) : M value :=
  match ObjectId_parse s with
  | Some o => ret o
  | None => raise InvalidId
  end.

(** ** Request payloads and schemas *)

Inductive role := student | teacher.
Inductive status := present | absent.

Definition role_str (r : role) : string :=
  match r with student => "student" | teacher => "teacher" end.
Definition status_str (s : status) : string :=
  match s with present => "present" | absent => "absent" end.

Definition opt_str (o : option string) : value :=
  match o with Some s => VStr s | None => VNone end.

Record DemoLoginRequest := mk_DemoLoginRequest {
  dl_role : role; dl_name : string; dl_email : string;
  dl_mobile : option string; dl_roll : option string }.

Record UpdateUserRequest := mk_UpdateUserRequest {
  uu_name : option string; uu_email : option string;
  uu_mobile : option string; uu_roll : option string }.

Record EventCreateRequest := mk_EventCreateRequest {
  ev_title : string; ev_description : option string; ev_date : datetime;
  ev_location : option string; ev_created_by_role : role }.

Record AttendanceMark := mk_AttendanceMark { am_roll : string; am_status : status }.

Record AttendanceMarkRequest := mk_AttendanceMarkRequest {
  amr_date : date; amr_entries : list AttendanceMark }.

Record ManualPercentageRequest := mk_ManualPercentageRequest {
  mp_roll : string; mp_manual_percentage : float }.

(** [payload.model_dump()] of each request model. *)
Definition DemoLoginRequest_dump (p : DemoLoginRequest) : dict :=
  <["role" := VStr (role_str (dl_role p))]>
    (<["name" := VStr (dl_name p)]>
      (<["email" := VStr (dl_email p)]>
        (<["mobile" := opt_str (dl_mobile p)]>
          {["roll" := opt_str (dl_roll p)]}))).

Definition set_some (k : string) (o : option string) (d : dict) : dict :=
  match o with Some s => <[k := VStr s]> d | None => d end.

(** [payload.model_dump(exclude_none=True)]. *)
Definition UpdateUserRequest_dump_exclude_none (p : UpdateUserRequest) : dict :=
  set_some "name" (uu_name p)
    (set_some "email" (uu_email p)
      (set_some "mobile" (uu_mobile p)
        (set_some "roll" (uu_roll p) ∅))).

Definition EventCreateRequest_dump (p : EventCreateRequest) : dict :=
  <["title" := VStr (ev_title p)]>
    (<["description" := opt_str (ev_description p)]>
      (<["date" := VDatetime (ev_date p)]>
        (<["location" := opt_str (ev_location p)]>
          {["created_by_role" := VStr (role_str (ev_created_by_role p))]}))).

Definition ManualPercentageRequest_dump (p : ManualPercentageRequest) : dict :=
  <["roll" := VStr (mp_roll p)]>
    {["manual_percentage" := VFloat (mp_manual_percentage p)]}.

(** The models of [schemas.py]; a model built from keyword arguments
    validates them, ignores names it does not declare and raises
    [ValidationError] otherwise. *)
Record CampusUser := mk_CampusUser {
  cu_role : role; cu_name : string; cu_email : string;
  cu_mobile : option string; cu_roll : option string }.

Record Event := mk_Event {
  e_title : string; e_description : option string; e_date : datetime;
  e_location : option string; e_created_by_role : role }.

Record AttendanceRecord := mk_AttendanceRecord {
  ar_roll : string; ar_attendance_date : date; ar_status : status }.

Record AttendanceOverride := mk_AttendanceOverride {
  ao_roll : string; ao_manual_percentage : float }.

Definition field_str (d : dict) (k : string) : option string :=
  match d !! k with Some (VStr s) => Some s | _ => None end.

Definition field_opt_str (d : dict) (k : string) : option (option string) :=
  match d !! k with
  | Some (VStr s) => Some (Some s)
  | Some VNone | None => Some None
  | _ => None
  end.

Definition field_role (d : dict) (k : string) : option role :=
  match d !! k with
  | Some (VStr s) =>
      if decide (s = "student") then Some student
      else if decide (s = "teacher") then Some teacher else None
  | _ => None
  end.

Definition field_datetime (d : dict) (k : string) : option datetime :=
  match d !! k with Some (VDatetime t) => Some t | _ => None end.

Definition field_float (d : dict) (k : string) : option float :=
  match d !! k with
  | Some (VFloat f) => Some f
  | Some (VInt z) => Some (of_Z z)
  | _ => None
  end.

Definition validated {A} (model : string) (o : option A) : M A :=
  match o with
  | Some a => ret a
  | None => raise (ValidationError model)
  end.

(** [CampusUser] built from the keyword arguments [data]. *)
Definition CampusUser_new (data : dict) : M CampusUser :=
  validated "CampusUser"
    (r ← field_role data "role"; n ← field_str data "name";
     e ← field_str data "email"; m ← field_opt_str data "mobile";
     l ← field_opt_str data "roll"; Some (mk_CampusUser r n e m l)).

(** [Event] built from [data]; [created_by_role] defaults to teacher. *)
Definition Event_new (data : dict) : M Event :=
  validated "Event"
    (t ← field_str data "title"; d ← field_opt_str data "description";
     w ← field_datetime data "date"; l ← field_opt_str data "location";
     r ← match data !! "created_by_role" with
         | None => Some teacher
         | Some _ => field_role data "created_by_role"
         end;
     Some (mk_Event t d w l r)).

(** [AttendanceOverride] built from [data]: [manual_percentage] has
    [ge=0, le=100]. *)
Definition AttendanceOverride_new (data : dict) : M AttendanceOverride :=
  validated "AttendanceOverride"
    (r ← field_str data "roll"; f ← field_float data "manual_percentage";
     if fleb zero f && fleb f hundred then Some (mk_AttendanceOverride r f)
     else None).

Definition CampusUser_dump (u : CampusUser) : dict :=
  <["role" := VStr (role_str (cu_role u))]>
    (<["name" := VStr (cu_name u)]>
      (<["email" := VStr (cu_email u)]>
        (<["mobile" := opt_str (cu_mobile u)]>
          {["roll" := opt_str (cu_roll u)]}))).

Definition Event_dump (e : Event) : dict :=
  <["title" := VStr (e_title e)]>
    (<["description" := opt_str (e_description e)]>
      (<["date" := VDatetime (e_date e)]>
        (<["location" := opt_str (e_location e)]>
          {["created_by_role" := VStr (role_str (e_created_by_role e))]}))).

(** [marked_by_role] is the literal ["teacher"]. *)
Definition AttendanceRecord_dump (r : AttendanceRecord) : dict :=
  <["roll" := VStr (ar_roll r)]>
    (<["attendance_date" := VDate (ar_attendance_date r)]>
      (<["status" := VStr (status_str (ar_status r))]>
        {["marked_by_role" := VStr "teacher"]})).

Definition AttendanceOverride_dump (o : AttendanceOverride) : dict :=
  <["roll" := VStr (ao_roll o)]>
    {["manual_percentage" := VFloat (ao_manual_percentage o)]}.

(** Modelled from the spec: the record shapes of section 3 that carry a
    server-assigned timestamp. Only CampusUser lists one ([updated_at]). *)
Definition timestamp_fields (c : coll) : list string :=
  match c with
  | campususer => ["updated_at"]
  | _ => []
  end.

(** Modelled from the spec: [create_document] of [database.py], which is not
    among the sources. Section 4.1: it fails with [StoreUnavailable] when no
    connection is configured, assigns the server-generated timestamps the
    schema defines, writes the record and returns the new identifier as a
    string. *)
Definition create_document (now : datetime) (c : coll) (record : dict)
  : M string :=
  none <- db_is_None ;;
  if none : bool then raise StoreUnavailable
  else
    let data := foldr (λ k d, <[k := VDatetime now]> d) record
                      (timestamp_fields c) in
    i <- insert_one c data ;;
    ret (oid_str i).

(** [bool(doc)] for the result of [find_one]. *)
Definition truthy (doc : option dict) : bool :=
  match doc with
  | Some d => if decide (d = ∅) then false else true
  | None => false
  end.

(** Results that are not documents. *)
Record MarkResult := mk_MarkResult { inserted : Z; ids : list string }.

Record Summary := mk_Summary {
  s_roll : string; presentDays : Z; absentDays : Z; percentage : float }.

(** ** Vocabulary of the statements *)

(** A world whose handle [db] is connected to store [s]. *)
Definition configured (s : Store) (tr : list op) : World :=
  mk_world (Some s) tr.

(** A world without a configured connection. *)
Definition unconfigured (tr : list op) : World := mk_world None tr.

(** The persisted attendance records of [roll] with status [st]. *)
Definition attendance_records (roll : string) (st : status) (s : Store)
  : list dict :=
  filter (λ d : dict, d !! "roll" = Some (VStr roll)
                      ∧ d !! "status" = Some (VStr (status_str st)))
         (c_attendancerecord s).

Definition attendance_count (roll : string) (st : status) (s : Store) : Z :=
  Z.of_nat (length (attendance_records roll st s)).

(** The override record of [roll]: the first one in natural order. *)
Definition override_for (roll : string) (s : Store) : option dict :=
  head (filter (λ d : dict, d !! "roll" = Some (VStr roll))
               (c_attendanceoverride s)).

(** Its [manual_percentage], when that is a number. *)
Definition manual_override (roll : string) (s : Store) : option value :=
  ov ← override_for roll s;
  v ← ov !! "manual_percentage";
  if is_number v then Some v else None.

(** The document [create_document] writes for [record]. *)
Definition created (now : datetime) (c : coll) (record : dict) (s : Store)
  : dict :=
  <["_id" := VOid (fresh_oid (get_coll c s))]>
    (stored (foldr (λ k d, <[k := VDatetime now]> d) record
                   (timestamp_fields c))).

(** [doc] is the attendance record stored for entry [e] of a request dated
    [d]: the dumped [AttendanceRecord] under a generated [_id]. *)
Definition marked_record (d : date) (e : AttendanceMark) (doc : dict) : Prop :=
  ∃ o : ObjectId,
    doc = <["_id" := VOid o]>
            (AttendanceRecord_dump
               (mk_AttendanceRecord (am_roll e) d (am_status e))).

(** The external id of a stored document. *)
Definition id_str (doc : dict) : string := oid_str (oid_of doc).

(** The request body of [PUT /users/{id}] that supplies no field. *)
Definition no_fields : UpdateUserRequest :=
  mk_UpdateUserRequest None None None None.

(** The acknowledgement [{"updated": False}]. *)
Definition unchanged_ack : dict := {["updated" := VBool false]}.

(** The user records with a given email. *)
Definition with_email (email : string) (c : list dict) : list dict :=
  filter (λ d : dict, d !! "email" = Some (VStr email)) c.

(** The store's guarantee on [_id]: every document has one and no two
    documents of a collection share it. *)
Definition ids_unique (c : list dict) : Prop :=
  Forall (λ d : dict, is_Some (d !! "_id")) c
  ∧ NoDup ((λ d : dict, d !! "_id") <$> c).

(** The five payload fields of record [u] are those of [p]. *)
Definition matches_payload (p : DemoLoginRequest) (u : dict) : Prop :=
  u !! "role" = Some (VStr (role_str (dl_role p)))
  ∧ u !! "name" = Some (VStr (dl_name p))
  ∧ u !! "email" = Some (VStr (dl_email p))
  ∧ u !! "mobile" = Some (opt_str (dl_mobile p))
  ∧ u !! "roll" = Some (opt_str (dl_roll p)).

(** The dict [demo_login] passes to [$set]. *)
Definition login_data (now : datetime) (p : DemoLoginRequest) : dict :=
  <["updated_at" := VDatetime now]> (DemoLoginRequest_dump p).

(** The fields [demo_login] writes. *)
Definition login_fields : list string :=
  ["role"; "name"; "email"; "mobile"; "roll"; "updated_at"].

(** The fields a demo-login request supplies explicitly. *)
Definition supplied_fields (p : DemoLoginRequest) : list string :=
  ["role"; "name"; "email"]
    ++ match dl_mobile p with Some _ => ["mobile"] | None => [] end
    ++ match dl_roll p with Some _ => ["roll"] | None => [] end.

(** Record [u'] is [u] field-patched by request [p]: outside the supplied
    fields and [updated_at] nothing changed. *)
Definition field_patched (p : DemoLoginRequest) (u u' : dict) : Prop :=
  ∀ k : string,
    k ∉ supplied_fields p → k ≠ "updated_at" → u' !! k = u !! k.

(** [CampusUser] as validated from the payload [p]. *)
Definition user_of (p : DemoLoginRequest) : CampusUser :=
  mk_CampusUser (dl_role p) (dl_name p) (dl_email p) (dl_mobile p) (dl_roll p).

(** A dict is in external form when it has no [_id] key and no date or
    datetime value. *)
Definition external_form (d : dict) : Prop :=
  d !! "_id" = None ∧ ∀ (k : string) (v : value), d !! k = Some v → is_temporal v = false.

(** [m] relates the store it starts from to the store it leaves, by [R],
    whatever its outcome. *)
Definition respects {A} (R : relation (option Store)) (m : M A) : Prop :=
  ∀ w : World, R (db w) (db (m w).2).

(** The [_id] guarantee on every collection of the store behind [db]. *)
Definition store_ids_unique (s : Store) : Prop :=
  ∀ c : coll, ids_unique (get_coll c s).

Definition db_ids_unique (o : option Store) : Prop :=
  match o with
  | Some s => store_ids_unique s
  | None => True
  end.

Definition keeps_ids : relation (option Store) :=
  λ o o', db_ids_unique o → db_ids_unique o'.

(** The attendance records are exactly what they were. *)
Definition records_kept : relation (option Store) :=
  λ o o', c_attendancerecord <$> o' = c_attendancerecord <$> o.

(** The user records behind [db]. *)
Definition world_users (w : World) : list dict :=
  match db w with
  | Some s => c_campususer s
  | None => []
  end.

(** The attendance records only grow at the end. *)
Definition records_extended : relation (option Store) :=
  λ o o',
    match o, o' with
    | Some s, Some s' => c_attendancerecord s `prefix_of` c_attendancerecord s'
    | None, None => True
    | _, _ => False
    end.

(** The value a field has after a patch that may supply it. *)
Definition patched (supplied : option string) (old : option value)
  : option value :=
  match supplied with
  | Some x => Some (VStr x)
  | None => old
  end.

(** The dict [update_user] passes to [$set]. *)
Definition user_updates (now : datetime) (p : UpdateUserRequest) : dict :=
  <["updated_at" := VDatetime now]> (UpdateUserRequest_dump_exclude_none p).

(** The fields [update_user] can write, and those [update_event] writes. *)
Definition user_fields : list string :=
  ["name"; "email"; "mobile"; "roll"; "updated_at"].

Definition event_fields : list string :=
  ["title"; "description"; "date"; "location"; "created_by_role"].

(** [Event] as validated from the payload [p]. *)
Definition event_of (p : EventCreateRequest) : Event :=
  mk_Event (ev_title p) (ev_description p) (ev_date p) (ev_location p)
           (ev_created_by_role p).

(** The acknowledgement [{"deleted": True}]. *)
Definition deleted_ack : dict := {["deleted" := VBool true]}.

(** [manual_percentage] passes [ge=0, le=100]. *)
Definition in_range (f : float) : bool := fleb zero f && fleb f hundred.

(** The override records of a roll. *)
Definition with_roll (roll : string) (c : list dict) : list dict :=
  filter (λ d : dict, d !! "roll" = Some (VStr roll)) c.

#[global] Instance status_eq_dec : EqDecision status.
Proof. solve_decision. Defined.

(** The entries of a mark request that concern [roll] with status [st]. *)
Definition entries_for (roll : string) (st : status)
    (entries : list AttendanceMark) : list AttendanceMark :=
  filter (λ e, am_roll e = roll ∧ am_status e = st) entries.

(** No two user records share an email; no two overrides share a roll. *)
Definition emails_unique (c : list dict) : Prop :=
  ∀ email : string, (length (with_email email c) ≤ 1)%nat.

Definition rolls_unique (c : list dict) : Prop :=
  ∀ roll : string, (length (with_roll roll c) ≤ 1)%nat.

(** ** Sample data for the concrete runs *)

(** A stand-in for [repr] on floats. No sample document has a float for
    [_id], so no run below consults it. *)
Definition sample_float_repr : float → string := λ _, "".

Definition now0 : datetime := mk_datetime (mk_date 2024 3 9) 14 5 0 0.
Definition now1 : datetime := mk_datetime (mk_date 2024 3 9) 14 6 30 0.

Definition empty_store : Store := mk_store [] [] [] [].

Definition bob : dict :=
  <["_id" := VOid 2%N]>
    (<["role" := VStr "teacher"]>
      (<["name" := VStr "Bob"]>
        (<["email" := VStr "bob@campus.edu"]>
          (<["mobile" := VNone]> {["roll" := VNone]})))).

Definition ann : dict :=
  <["_id" := VOid 1%N]>
    (<["role" := VStr "student"]>
      (<["name" := VStr "Ann"]>
        (<["email" := VStr "ann@campus.edu"]>
          (<["mobile" := VStr "555-0101"]> {["roll" := VStr "R1"]})))).

(** A login for Ann that supplies neither [mobile] nor [roll]. *)
Definition ann_login : DemoLoginRequest :=
  mk_DemoLoginRequest student "Ann" "ann@campus.edu" None None.

Definition ann_relogin : DemoLoginRequest :=
  mk_DemoLoginRequest teacher "Ann B" "ann@campus.edu" (Some "555-0199") None.

(** Ann's record after [ann_login] at [now0]. *)
Definition ann_after : dict :=
  <["_id" := VOid 1%N]>
    (<["role" := VStr "student"]>
      (<["name" := VStr "Ann"]>
        (<["email" := VStr "ann@campus.edu"]>
          (<["mobile" := VNone]>
            (<["roll" := VNone]> {["updated_at" := VDatetime now0]}))))).

Definition users_store : Store := mk_store [bob; ann] [] [] [].

Definition fair : dict :=
  <["_id" := VOid 1%N]>
    (<["title" := VStr "Science fair"]>
      (<["description" := VNone]>
        (<["date" := VDatetime now1]>
          (<["location" := VStr "Hall A"]>
            {["created_by_role" := VStr "teacher"]})))).

Definition events_store : Store := mk_store [] [fair] [] [].

Definition fair_update : EventCreateRequest :=
  mk_EventCreateRequest "Science fair" None now1 (Some "Hall B") teacher.

(** An override of 50.0 for roll R1, and the same record holding 150.0. *)
Definition override_50 : dict :=
  <["_id" := VOid 1%N]>
    (<["roll" := VStr "R1"]> {["manual_percentage" := VFloat (of_Z 50)]}).

Definition override_150 : dict :=
  <["_id" := VOid 1%N]>
    (<["roll" := VStr "R1"]> {["manual_percentage" := VFloat (of_Z 150)]}).

Definition overrides_store : Store := mk_store [] [] [] [override_50].

Definition request_150 : ManualPercentageRequest :=
  mk_ManualPercentageRequest "R1" (of_Z 150).

(** A sample order on field values: datetimes by calendar position,
    everything else tied. *)
Definition datetime_rank (t : datetime) : N :=
  ((((((year (dt_date t) * 13 + month (dt_date t)) * 32 + day (dt_date t)) * 24
      + hour t) * 60 + minute t) * 60 + second t) * 1000000 + microsecond t)%N.

Definition sample_bson_compare (a b : option value) : comparison :=
  match a, b with
  | Some (VDatetime x), Some (VDatetime y) =>
      N.compare (datetime_rank x) (datetime_rank y)
  | _, _ => Eq
  end.

Definition gala : dict :=
  <["_id" := VOid 2%N]>
    (<["title" := VStr "Gala"]>
      (<["description" := VNone]>
        (<["date" := VDatetime now0]>
          (<["location" := VNone]>
            {["created_by_role" := VStr "student"]})))).

Definition two_events_store : Store := mk_store [] [fair; gala] [] [].

(** The external form of [fair]. *)
Definition fair_external : dict :=
  <["id" := VStr "000000000000000000000001"]>
    (<["title" := VStr "Science fair"]>
      (<["description" := VNone]>
        (<["date" := VStr "2024-03-09T14:06:30"]>
          (<["location" := VStr "Hall A"]>
            {["created_by_role" := VStr "teacher"]})))).

Definition ann_id : string := "000000000000000000000001".
Definition unknown_id : string := "000000000000000000000007".

Definition ann_new_mobile : UpdateUserRequest :=
  mk_UpdateUserRequest None None (Some "555-0199") None.

Definition cleo_login : DemoLoginRequest :=
  mk_DemoLoginRequest student "Cleo" "cleo@campus.edu" None (Some "R7").

Definition request_nan : ManualPercentageRequest :=
  mk_ManualPercentageRequest "R1" S754_nan.

(** A clock reading with microseconds. *)
Definition now_micro : datetime :=
  mk_datetime (mk_date 2024 3 9) 14 5 0 123456.

Definition fair_moved : EventCreateRequest :=
  mk_EventCreateRequest "Science fair" None now_micro (Some "Hall B") teacher.

Definition bob_id : string := "000000000000000000000002".

(** An update that gives Bob the email Ann has. *)
Definition bob_takes_ann_email : UpdateUserRequest :=
  mk_UpdateUserRequest None (Some "ann@campus.edu") None None.

(** Twenty hexadecimal digits in groups of four: 24 characters. *)
Definition spaced_id : string := "0000 0000 0000 0000 0000".

Section CampusPortal.

(** [repr] of a float (the shortest digit string that reads back as the
    same double) is the interpreter's; only [str] of a float-valued
    [_id] would need it. *)
Variable float_repr : float → string.

(** The order the store sorts field values by (BSON comparison order), a
    property of the database server. *)
Variable bson_compare : option value → option value → comparison.

(** [str(v)]. *)
Definition py_str (v : value) : string :=
  match v with
  | VNone => "None"
  | VBool true => "True"
  | VBool false => "False"
  | VInt z => pretty z
  | VFloat f => float_repr f
  | VStr s => s
  | VOid o => oid_str o
  | VOidBytes bs => String.concat "" (hex_digits 2 <$> bs)
  | VDate d => date_isoformat d
  | VDatetime t => datetime_isoformat " " t
  end.

(** *** Helpers of [main.py] *)

(** The loop [for k, v in list(d.items()): if isinstance(v, (datetime,
    date)): d[k] = v.isoformat()], run over a snapshot [items] of the
    entries. *)
Definition stringify_temporals (items : list (string * value)) (d : dict)
  : dict :=
  foldl (λ acc kv, if is_temporal kv.2 then <[kv.1 := isoformat kv.2]> acc
                   else acc) d items.

(** [if "_id" in d: d["id"] = str(d.pop("_id"))]. *)
Definition rename_id (d0 : dict) : dict :=
  match d0 !! "_id" with
  | Some v => <["id" := VStr (py_str v)]> (delete "_id" d0)
  | None => d0
  end.

(** [serialize_id(doc)]; [None] and the empty dict are falsy and returned
    as they are. *)
Definition serialize_id (doc : option dict) : option dict :=
  match doc with
  | None => None
  | Some d0 =>
      if decide (d0 = ∅) then Some d0
      else
        let d := rename_id d0 in
        Some (stringify_temporals (map_to_list d) d)
  end.

(** [oid(id_str)]: any failure of [ObjectId] becomes a 400. *)
Definition oid (id_str : string) : M value :=
  match ObjectId_parse id_str with
  | Some o => ret o
  | None => raise (HTTPException 400 "Invalid ID format")
  end.

(** [find({}).sort(key, direction).limit(limit)], with [1 <= limit]. *)
Definition sort_docs (key : string) (ascending : bool) (l : list dict)
  : list dict :=
  let le x y :=
    match (if ascending then bson_compare (x !! key) (y !! key)
           else bson_compare (y !! key) (x !! key)) with
    | Gt => false
    | _ => true
    end in
  foldr (insert_by le) [] l.

Definition find_sorted (c : coll) (key : string) (ascending : bool)
    (limit : nat) : M (list dict) :=
  store_op (OpFind c) c (λ l, (take limit (sort_docs key ascending l), l)).

(** [x] may come before [y] in a listing sorted on [key]. *)
Definition doc_le (key : string) (ascending : bool) (x y : dict) : Prop :=
  (if ascending then bson_compare (x !! key) (y !! key)
   else bson_compare (y !! key) (x !! key)) ≠ Gt.

(** The order [bson_compare] is total: of two values, one is not above the
    other. *)
Definition compare_total : Prop :=
  ∀ a b : option value, bson_compare a b = Gt → bson_compare b a ≠ Gt.

(** *** Route handlers; [now] is the reading of [datetime.utcnow()] *)

(** [POST /auth/demo-login] *)
Definition demo_login (now : datetime) (payload : DemoLoginRequest)
  : M (option dict) :=
  none <- db_is_None ;;
  if none : bool then raise (HTTPException 500 "Database not configured")
  else
    existing <- find_one campususer [("email", VStr (dl_email payload))] ;;
    let data := <["updated_at" := VDatetime now]> (DemoLoginRequest_dump payload) in
    match existing with
    | Some ex =>
        if truthy existing then
          i <- getitem ex "_id" ;;
          update_one campususer [("_id", i)] data ;;
          i' <- getitem ex "_id" ;;
          user <- find_one campususer [("_id", i')] ;;
          ret (serialize_id user)
        else
          u <- CampusUser_new data ;;
          user_id <- create_document now campususer (CampusUser_dump u) ;;
          collection campususer ;;
          o <- ObjectId_new user_id ;;
          user <- find_one campususer [("_id", o)] ;;
          ret (serialize_id user)
    | None =>
        u <- CampusUser_new data ;;
        user_id <- create_document now campususer (CampusUser_dump u) ;;
        collection campususer ;;
        o <- ObjectId_new user_id ;;
        user <- find_one campususer [("_id", o)] ;;
        ret (serialize_id user)
    end.

(** [PUT /users/{user_id}] *)
Definition update_user (now : datetime) (user_id : string)
    (payload : UpdateUserRequest) : M (option dict) :=
  none <- db_is_None ;;
  if none : bool then raise (HTTPException 500 "Database not configured")
  else
    let updates := UpdateUserRequest_dump_exclude_none payload in
    if decide (updates = ∅) then ret (Some {["updated" := VBool false]})
    else
      let updates := <["updated_at" := VDatetime now]> updates in
      collection campususer ;;
      i <- oid user_id ;;
      matched_count <- update_one campususer [("_id", i)] updates ;;
      if matched_count =? 0 then raise (HTTPException 404 "User not found")
      else
        collection campususer ;;
        i' <- oid user_id ;;
        doc <- find_one campususer [("_id", i')] ;;
        ret (serialize_id doc).

(** [GET /events] *)
Definition list_events (limit : nat) : M (list (option dict)) :=
  docs <- find_sorted event "date" true limit ;;
  ret (map (λ d, serialize_id (Some d)) docs).

(** [POST /events] *)
Definition create_event (now : datetime) (payload : EventCreateRequest)
  : M (option dict) :=
  e <- Event_new (EventCreateRequest_dump payload) ;;
  event_id <- create_document now event (Event_dump e) ;;
  collection event ;;
  o <- ObjectId_new event_id ;;
  doc <- find_one event [("_id", o)] ;;
  ret (serialize_id doc).

(** [PUT /events/{event_id}] *)
Definition update_event (event_id : string) (payload : EventCreateRequest)
  : M (option dict) :=
  collection event ;;
  i <- oid event_id ;;
  matched_count <- update_one event [("_id", i)]
                     (EventCreateRequest_dump payload) ;;
  if matched_count =? 0 then raise (HTTPException 404 "Event not found")
  else
    collection event ;;
    i' <- oid event_id ;;
    doc <- find_one event [("_id", i')] ;;
    ret (serialize_id doc).

(** [DELETE /events/{event_id}] *)
Definition delete_event (event_id : string) : M dict :=
  collection event ;;
  i <- oid event_id ;;
  deleted_count <- delete_one event [("_id", i)] ;;
  if deleted_count =? 0 then raise (HTTPException 404 "Event not found")
  else ret {["deleted" := VBool true]}.

(** The loop of [mark_attendance] over the remaining entries. *)
Fixpoint mark_entries (now : datetime) (d : date)
    (entries : list AttendanceMark) (inserted_ids : list string)
  : M (list string) :=
  match entries with
  | [] => ret inserted_ids
  | e :: rest =>
      let doc := mk_AttendanceRecord (am_roll e) d (am_status e) in
      ins_id <- create_document now attendancerecord
                  (AttendanceRecord_dump doc) ;;
      mark_entries now d rest (inserted_ids ++ [ins_id])
  end.

(** [POST /attendance/mark] *)
Definition mark_attendance (now : datetime) (payload : AttendanceMarkRequest)
  : M MarkResult :=
  match amr_entries payload with
  | [] => raise (HTTPException 400 "No entries to mark")
  | _ :: _ =>
      inserted_ids <- mark_entries now (amr_date payload)
                        (amr_entries payload) [] ;;
      ret (mk_MarkResult (Z.of_nat (length inserted_ids)) inserted_ids)
  end.

(** [GET /attendance/recent] *)
Definition recent_attendance (limit : nat) : M (list (option dict)) :=
  docs <- find_sorted attendancerecord "attendance_date" false limit ;;
  ret (map (λ d, serialize_id (Some d)) docs).

(** [POST /attendance/manual-percentage] *)
Definition set_manual_percentage (now : datetime)
    (payload : ManualPercentageRequest) : M (option dict) :=
  existing <- find_one attendanceoverride [("roll", VStr (mp_roll payload))] ;;
  match existing with
  | Some ex =>
      if truthy existing then
        i <- getitem ex "_id" ;;
        update_one attendanceoverride [("_id", i)]
          (ManualPercentageRequest_dump payload) ;;
        i' <- getitem ex "_id" ;;
        doc <- find_one attendanceoverride [("_id", i')] ;;
        ret (serialize_id doc)
      else
        o <- AttendanceOverride_new (ManualPercentageRequest_dump payload) ;;
        ins_id <- create_document now attendanceoverride
                    (AttendanceOverride_dump o) ;;
        collection attendanceoverride ;;
        i <- ObjectId_new ins_id ;;
        doc <- find_one attendanceoverride [("_id", i)] ;;
        ret (serialize_id doc)
  | None =>
      o <- AttendanceOverride_new (ManualPercentageRequest_dump payload) ;;
      ins_id <- create_document now attendanceoverride
                  (AttendanceOverride_dump o) ;;
      collection attendanceoverride ;;
      i <- ObjectId_new ins_id ;;
      doc <- find_one attendanceoverride [("_id", i)] ;;
      ret (serialize_id doc)
  end.

(** [override.get("manual_percentage")]. *)
Definition get_or_None (d : dict) (k : string) : value :=
  default VNone (d !! k).

(** [GET /attendance/summary] *)
Definition attendance_summary (roll : string) : M Summary :=
  total_present <- count_documents attendancerecord
                     [("roll", VStr roll); ("status", VStr "present")] ;;
  total_absent <- count_documents attendancerecord
                    [("roll", VStr roll); ("status", VStr "absent")] ;;
  let total := total_present + total_absent in
  percentage <- (if total >? 0 then
                   match int_true_div total_present total with
                   | Some q => ret (fmul q hundred)
                   | None => raise ZeroDivisionError
                   end
                 else ret zero) ;;
  override <- find_one attendanceoverride [("roll", VStr roll)] ;;
  percentage <- match override with
                | Some ov =>
                    if truthy override
                       && is_number (get_or_None ov "manual_percentage")
                    then v <- getitem ov "manual_percentage" ;;
                         ret (to_float v)
                    else ret percentage
                | None => ret percentage
                end ;;
  ret (mk_Summary roll total_present total_absent (round2 percentage)).

(** * Properties *)

(** ** Running handlers *)

Lemma bind_Return {A B} (m : M A) (f : A → M B) (w w' : World) (a : A) :
  m w = (Return a, w') → bind m f w = f a w'.
Proof. unfold bind. by intros ->. Qed.

Lemma bind_Raise {A B} (m : M A) (f : A → M B) (w w' : World) (e : exn) :
  m w = (Raise e, w') → bind m f w = (Raise e, w').
Proof. unfold bind. by intros ->. Qed.

Lemma set_coll_get_coll (c : coll) (s : Store) : set_coll c (get_coll c s) s = s.
Proof. by destruct s, c. Qed.

Lemma get_coll_set_coll (c : coll) (l : list dict) (s : Store) :
  get_coll c (set_coll c l s) = l.
Proof. by destruct c. Qed.

Lemma get_coll_set_coll_users (l : list dict) (s : Store) :
  c_campususer (set_coll campususer l s) = l.
Proof. done. Qed.

Lemma set_coll_set_coll (c : coll) (l l' : list dict) (s : Store) :
  set_coll c l' (set_coll c l s) = set_coll c l' s.
Proof. by destruct c. Qed.

Lemma find_one_configured (c : coll) (q : query) (s : Store) (tr : list op) :
  find_one c q (configured s tr) =
    (Return (coll_find_one q (get_coll c s)), configured s (tr ++ [OpFindOne c])).
Proof.
  unfold find_one, store_op, configured. cbn. by rewrite set_coll_get_coll.
Qed.

Lemma count_documents_configured (c : coll) (q : query) (s : Store)
    (tr : list op) :
  count_documents c q (configured s tr) =
    (Return (coll_count q (get_coll c s)), configured s (tr ++ [OpCount c])).
Proof.
  unfold count_documents, store_op, configured. cbn.
  by rewrite set_coll_get_coll.
Qed.

Lemma update_one_configured (c : coll) (q : query) (upd : dict) (s : Store)
    (tr : list op) :
  update_one c q upd (configured s tr) =
    (Return (coll_update_one q upd (get_coll c s)).1,
     configured (set_coll c (coll_update_one q upd (get_coll c s)).2 s)
                (tr ++ [OpUpdateOne c])).
Proof. done. Qed.

Lemma delete_one_configured (c : coll) (q : query) (s : Store) (tr : list op) :
  delete_one c q (configured s tr) =
    (Return (coll_delete_one q (get_coll c s)).1,
     configured (set_coll c (coll_delete_one q (get_coll c s)).2 s)
                (tr ++ [OpDeleteOne c])).
Proof. done. Qed.

Lemma collection_configured (c : coll) (s : Store) (tr : list op) :
  collection c (configured s tr) = (Return tt, configured s tr).
Proof. done. Qed.

Lemma db_is_None_configured (s : Store) (tr : list op) :
  db_is_None (configured s tr) = (Return false, configured s tr).
Proof. done. Qed.

(** ** Queries against their meaning *)

Lemma matches_cons (k : string) (v : value) (q : query) (d : dict) :
  matches ((k, v) :: q) d = bool_decide (d !! k = Some v) && matches q d.
Proof. done. Qed.

Lemma matches_1 (k : string) (v : value) (d : dict) :
  matches [(k, v)] d = true ↔ d !! k = Some v.
Proof.
  rewrite matches_cons. cbn. rewrite andb_true_r. apply bool_decide_eq_true.
Qed.

Lemma matches_2 (k1 k2 : string) (v1 v2 : value) (d : dict) :
  matches [(k1, v1); (k2, v2)] d = true ↔ d !! k1 = Some v1 ∧ d !! k2 = Some v2.
Proof.
  rewrite matches_cons, andb_true_iff, matches_1.
  by rewrite bool_decide_eq_true.
Qed.

Lemma find_head_filter {A} (f : A → bool) (P : A → Prop)
    `{!∀ x, Decision (P x)} (l : list A) :
  (∀ x, f x = true ↔ P x) → List.find f l = head (filter P l).
Proof.
  intros Hf. induction l as [|x l IH]; first done.
  cbn [List.find]. rewrite filter_cons.
  destruct (f x) eqn:Hx.
  - apply Hf in Hx. by rewrite decide_True.
  - rewrite decide_False; first done.
    intros HP. apply Hf in HP. congruence.
Qed.

Lemma filter_length_filter {A} (f : A → bool) (P : A → Prop)
    `{!∀ x, Decision (P x)} (l : list A) :
  (∀ x, f x = true ↔ P x) → length (List.filter f l) = length (filter P l).
Proof.
  intros Hf. induction l as [|x l IH]; first done.
  cbn [List.filter]. rewrite filter_cons.
  destruct (f x) eqn:Hx.
  - apply Hf in Hx. rewrite decide_True by done. cbn. by rewrite IH.
  - rewrite decide_False; first done.
    intros HP. apply Hf in HP. congruence.
Qed.

Lemma coll_count_attendance (roll : string) (st : status) (s : Store) :
  coll_count [("roll", VStr roll); ("status", VStr (status_str st))]
             (c_attendancerecord s)
  = attendance_count roll st s.
Proof.
  unfold coll_count, attendance_count, attendance_records. f_equal.
  apply filter_length_filter. intros d. apply matches_2.
Qed.

Lemma coll_find_one_override (roll : string) (s : Store) :
  coll_find_one [("roll", VStr roll)] (c_attendanceoverride s)
  = override_for roll s.
Proof.
  unfold coll_find_one, override_for.
  apply find_head_filter. intros d. apply matches_1.
Qed.

Lemma override_for_truthy (roll : string) (s : Store) (ov : dict) :
  override_for roll s = Some ov → truthy (Some ov) = true.
Proof.
  unfold override_for. intros Hov. apply head_Some_elem_of in Hov.
  apply list_elem_of_filter in Hov as [Hroll _].
  unfold truthy. destruct (decide (ov = ∅)) as [->|]; last done.
  by rewrite lookup_empty in Hroll.
Qed.

(** ** Serialization *)

Lemma isoformat_not_temporal (v : value) : is_temporal (isoformat v) = false.
Proof. by destruct v. Qed.

Lemma isoformat_id (v : value) : is_temporal v = false → isoformat v = v.
Proof. by destruct v. Qed.

Lemma isoformat_isoformat (v : value) : isoformat (isoformat v) = isoformat v.
Proof. by destruct v. Qed.

(** What the stringification loop leaves under each key, for a snapshot
    without repeated keys. *)
Lemma stringify_temporals_lookup (items : list (string * value)) :
  NoDup items.*1 →
  ∀ (d : dict) (k : string),
    stringify_temporals items d !! k =
      match (list_to_map items : dict) !! k with
      | Some v => if is_temporal v then Some (isoformat v) else d !! k
      | None => d !! k
      end.
Proof.
  induction items as [|[k0 v0] items IH]; intros Hnd d k; first done.
  rewrite fmap_cons in Hnd. apply NoDup_cons in Hnd as [Hk0 Hnd].
  unfold stringify_temporals in *. cbn [foldl].
  rewrite (IH Hnd). cbn [list_to_map foldr fst snd] in *.
  destruct (decide (k0 = k)) as [->|Hne].
  - rewrite (not_elem_of_list_to_map_1 _ _ Hk0), lookup_insert_eq.
    destruct (is_temporal v0); by rewrite ?lookup_insert_eq.
  - rewrite lookup_insert_ne by done.
    destruct (list_to_map items !! k); last first.
    { destruct (is_temporal v0); by rewrite ?lookup_insert_ne. }
    destruct (is_temporal v); first done.
    destruct (is_temporal v0); by rewrite ?lookup_insert_ne.
Qed.

(** The loop over a dict's own items maps [isoformat] over its values. *)
Lemma stringify_temporals_fmap (d : dict) :
  stringify_temporals (map_to_list d) d = isoformat <$> d.
Proof.
  apply map_eq; intros k.
  rewrite stringify_temporals_lookup by apply NoDup_fst_map_to_list.
  rewrite list_to_map_to_list, lookup_fmap.
  destruct (d !! k) as [v|] eqn:Hk; cbn; last done.
  destruct (is_temporal v) eqn:Hv; first done.
  by rewrite isoformat_id.
Qed.

Lemma serialize_id_Some (d0 : dict) :
  d0 ≠ ∅ → serialize_id (Some d0) = Some (isoformat <$> rename_id d0).
Proof.
  intros Hne. unfold serialize_id.
  destruct (decide (d0 = ∅)); first done.
  by rewrite stringify_temporals_fmap.
Qed.

Lemma rename_id_no_id (d0 : dict) : rename_id d0 !! "_id" = None.
Proof.
  unfold rename_id. destruct (d0 !! "_id") eqn:Hid; last done.
  rewrite lookup_insert_ne by done. apply lookup_delete_eq.
Qed.

(** C7: [serialize_id] is idempotent: applied to its own output it returns
    that output unchanged, for every document (and for [None]). *)
Theorem serialize_id_idempotent (doc : option dict) :
  serialize_id (serialize_id doc) = serialize_id doc.
Proof.
  destruct doc as [d0|]; last done.
  destruct (decide (d0 = ∅)) as [->|Hne]; first done.
  rewrite (serialize_id_Some d0 Hne).
  set (d1 := isoformat <$> rename_id d0).
  destruct (decide (d1 = ∅)) as [He|Hne1].
  { unfold serialize_id. by destruct (decide (d1 = ∅)). }
  rewrite (serialize_id_Some d1 Hne1). f_equal.
  assert (Hid : d1 !! "_id" = None).
  { unfold d1. by rewrite lookup_fmap, rename_id_no_id. }
  unfold rename_id. rewrite Hid. unfold d1.
  apply map_eq; intros k. rewrite !lookup_fmap.
  destruct (rename_id d0 !! k); cbn; last done.
  by rewrite isoformat_isoformat.
Qed.

(** ** Attendance summary *)

(** C1: with [P] present and [A] absent records persisted for a roll, the
    summary returns [presentDays = P], [absentDays = A] and a percentage
    that is [round(manual_percentage, 2)] when the roll's override record
    holds a number, and otherwise [round(P / (P + A) * 100, 2)] when
    [P + A > 0] and [0.0] when [P + A = 0]. *)
Theorem attendance_summary_spec (roll : string) (s : Store) (tr : list op) :
  let P := attendance_count roll present s in
  let A := attendance_count roll absent s in
  attendance_summary roll (configured s tr) =
    (Return
       {| s_roll := roll;
          presentDays := P;
          absentDays := A;
          percentage :=
            match manual_override roll s with
            | Some v => round2 (to_float v)
            | None =>
                if P + A =? 0 then zero
                else round2 (fmul (true_quotient P (P + A)) hundred)
            end |},
     configured s (tr ++ [OpCount attendancerecord; OpCount attendancerecord;
                          OpFindOne attendanceoverride])).
Proof.
  intros P A. unfold attendance_summary.
  erewrite bind_Return by apply count_documents_configured.
  erewrite bind_Return by apply count_documents_configured.
  cbn [get_coll].
  pose proof (coll_count_attendance roll present s) as HcP.
  pose proof (coll_count_attendance roll absent s) as HcA.
  cbn [status_str] in HcP, HcA. rewrite HcP, HcA. clear HcP HcA. fold P A.
  assert (HP : 0 ≤ P) by (unfold P, attendance_count; lia).
  assert (HA : 0 ≤ A) by (unfold A, attendance_count; lia).
  rewrite <- !app_assoc. cbn [app].
  set (pct := if P + A =? 0 then zero
              else fmul (true_quotient P (P + A)) hundred).
  assert (Hpct : (if P + A >? 0
                  then match int_true_div P (P + A) with
                       | Some q => ret (fmul q hundred)
                       | None => raise ZeroDivisionError
                       end
                  else ret zero)
                 (configured s (tr ++ [OpCount attendancerecord;
                                       OpCount attendancerecord]))
                 = (Return pct, configured s (tr ++ [OpCount attendancerecord;
                                                     OpCount attendancerecord]))).
  { unfold pct, int_true_div.
    destruct (Z.eqb_spec (P + A) 0) as [->|Hne]; first done.
    replace (P + A >? 0) with true by (symmetry; apply Z.gtb_lt; lia).
    done. }
  erewrite bind_Return by apply Hpct.
  erewrite bind_Return by apply find_one_configured.
  cbn [get_coll]. rewrite coll_find_one_override.
  rewrite <- !app_assoc. cbn [app].
  unfold manual_override.
  destruct (override_for roll s) as [ov|] eqn:Hov; cbn [mbind option_bind].
  - rewrite (override_for_truthy _ _ _ Hov). cbn [andb].
    unfold get_or_None, getitem.
    destruct (ov !! "manual_percentage") as [v|] eqn:Hv; cbn.
    + destruct (is_number v) eqn:Hn; cbn.
      * done.
      * unfold pct. by destruct (P + A =? 0).
    + unfold pct. by destruct (P + A =? 0).
  - cbn. unfold pct. by destruct (P + A =? 0).
Qed.

(** ** Inserting documents *)

Lemma insert_one_configured (c : coll) (d : dict) (s : Store) (tr : list op) :
  insert_one c d (configured s tr) =
    (Return (fresh_oid (get_coll c s)),
     configured
       (set_coll c (get_coll c s
                      ++ [<["_id" := VOid (fresh_oid (get_coll c s))]> (stored d)]) s)
       (tr ++ [OpInsertOne c])).
Proof. done. Qed.

Lemma create_document_configured (now : datetime) (c : coll) (record : dict)
    (s : Store) (tr : list op) :
  create_document now c record (configured s tr) =
    (Return (oid_str (fresh_oid (get_coll c s))),
     configured (set_coll c (get_coll c s ++ [created now c record s]) s)
                (tr ++ [OpInsertOne c])).
Proof. done. Qed.

Lemma oid_of_insert (o : ObjectId) (d : dict) :
  oid_of (<["_id" := VOid o]> d) = o.
Proof. unfold oid_of. by rewrite lookup_insert_eq. Qed.

Lemma mark_entries_spec (now : datetime) (d : date)
    (entries : list AttendanceMark) :
  ∀ (s : Store) (tr : list op) (acc : list string),
  ∃ new_docs : list dict,
    mark_entries now d entries acc (configured s tr) =
      (Return (acc ++ (id_str <$> new_docs)),
       configured
         (set_coll attendancerecord (c_attendancerecord s ++ new_docs) s)
         (tr ++ replicate (length entries) (OpInsertOne attendancerecord)))
    ∧ Forall2 (marked_record d) entries new_docs.
Proof.
  induction entries as [|e rest IH]; intros s tr acc.
  - exists []. split; last constructor.
    unfold mark_entries, ret. cbn [length replicate fmap list_fmap].
    rewrite !app_nil_r.
    change (c_attendancerecord s) with (get_coll attendancerecord s).
    by rewrite set_coll_get_coll.
  - cbn [mark_entries].
    erewrite bind_Return by apply create_document_configured.
    set (doc := created now attendancerecord _ s).
    destruct (IH (set_coll attendancerecord
                    (get_coll attendancerecord s ++ [doc]) s)
                 (tr ++ [OpInsertOne attendancerecord])
                 (acc ++ [oid_str (fresh_oid (get_coll attendancerecord s))]))
      as (new_docs & Hrun & Hall).
    exists (doc :: new_docs). split.
    + rewrite Hrun, set_coll_set_coll.
      cbn [set_coll get_coll c_attendancerecord].
      rewrite <- !app_assoc.
      cbn [app fmap list_fmap length replicate].
      assert (Hid : id_str doc = oid_str (fresh_oid (c_attendancerecord s))).
      { unfold id_str, doc, created. by rewrite oid_of_insert. }
      by rewrite Hid.
    + constructor; last done. by eexists.
Qed.

(** C6: an empty entries list fails with a 400 and leaves the store as it
    was; a list of [n > 0] entries appends exactly one attendance record per
    entry, in order, and returns [inserted = n] with the [n] generated ids. *)
Theorem mark_attendance_spec (now : datetime) (d : date) :
  (∀ w : World,
     mark_attendance now (mk_AttendanceMarkRequest d []) w =
       (Raise (HTTPException 400 "No entries to mark"), w))
  ∧ (∀ (e : AttendanceMark) (es : list AttendanceMark) (s : Store)
       (tr : list op),
     ∃ new_docs : list dict,
       mark_attendance now (mk_AttendanceMarkRequest d (e :: es))
                       (configured s tr) =
         (Return {| inserted := Z.of_nat (length (e :: es));
                    ids := id_str <$> new_docs |},
          configured
            (set_coll attendancerecord (c_attendancerecord s ++ new_docs) s)
            (tr ++ replicate (length (e :: es)) (OpInsertOne attendancerecord)))
       ∧ Forall2 (marked_record d) (e :: es) new_docs).
Proof.
  split; first done.
  intros e es s tr.
  destruct (mark_entries_spec now d (e :: es) s tr []) as (new_docs & Hrun & Hall).
  exists new_docs. split; last done.
  unfold mark_attendance. cbn [amr_entries].
  erewrite bind_Return by apply Hrun.
  cbn [app ret]. rewrite length_fmap.
  by rewrite <- (Forall2_length _ _ _ Hall).
Qed.

(** ** Updates and deletions that match nothing *)

Lemma coll_update_one_no_match (q : query) (upd : dict) (c : list dict) :
  Forall (λ d, matches q d = false) c → coll_update_one q upd c = (0, c).
Proof.
  induction 1 as [|d c Hd _ IH]; first done.
  cbn [coll_update_one]. by rewrite Hd, IH.
Qed.

Lemma coll_delete_one_no_match (q : query) (c : list dict) :
  Forall (λ d, matches q d = false) c → coll_delete_one q c = (0, c).
Proof.
  induction 1 as [|d c Hd _ IH]; first done.
  cbn [coll_delete_one]. by rewrite Hd, IH.
Qed.

Lemma no_match_by_field (k : string) (v : value) (c : list dict) :
  (∀ d : dict, d ∈ c → d !! k ≠ Some v) →
  Forall (λ d, matches [(k, v)] d = false) c.
Proof.
  intros Hc. apply Forall_forall. intros d Hd.
  apply not_true_is_false. rewrite matches_1. by apply Hc.
Qed.

Lemma hex_val_not_space (c : ascii) (d : N) :
  hex_val c = Some d → is_space c = false.
Proof.
  destruct c as [[] [] [] [] [] [] [] []]; vm_compute; congruence.
Qed.

(** On pairs of hexadecimal digits [bytes.fromhex] and [hex_parse] read the
    same number. *)
Lemma bytes_fromhex_hex_parse (n : nat) :
  ∀ (s : string) (acc o : N),
    String.length s = (2 * n)%nat →
    hex_parse acc s = Some o →
    ∃ bs : list N,
      bytes_fromhex s = Some bs ∧ length bs = n
      ∧ foldl (λ a b, (a * 256 + b)%N) acc bs = o.
Proof.
  induction n as [|n IH]; intros s acc o Hlen Hparse.
  - destruct s; last done. exists []. cbn in *. by inversion Hparse.
  - destruct s as [|c1 s]; first done.
    destruct s as [|c2 s]; first (cbn in Hlen; lia).
    cbn [hex_parse] in Hparse.
    destruct (hex_val c1) as [d1|] eqn:H1; last done.
    destruct (hex_val c2) as [d2|] eqn:H2; last done.
    destruct (IH s ((acc * 16 + d1) * 16 + d2)%N o)
      as (bs & Hbs & Hn & Hval); [cbn in *; lia | done | ].
    exists ((d1 * 16 + d2)%N :: bs).
    cbn [bytes_fromhex]. rewrite (hex_val_not_space c1 d1 H1), H1, H2, Hbs.
    repeat split; [cbn; lia | ].
    cbn [foldl]. rewrite <- Hval. f_equal. lia.
Qed.

Lemma ObjectId_parse_of_str (id_str : string) (o : ObjectId) :
  ObjectId_of_str id_str = Some o → ObjectId_parse id_str = Some (VOid o).
Proof.
  unfold ObjectId_of_str, ObjectId_parse.
  destruct (Nat.eqb_spec (String.length id_str) 24) as [Hlen|]; last done.
  intros Hparse.
  destruct (bytes_fromhex_hex_parse 12 id_str 0%N o Hlen Hparse)
    as (bs & -> & Hn & Hval).
  rewrite Hn. cbn [Nat.eqb]. unfold be_value. by rewrite Hval.
Qed.

Lemma oid_valid (id_str : string) (o : ObjectId) (w : World) :
  ObjectId_of_str id_str = Some o → oid id_str w = (Return (VOid o), w).
Proof. intros Ho. unfold oid. by rewrite (ObjectId_parse_of_str _ _ Ho). Qed.

Lemma oid_invalid (id_str : string) (w : World) :
  ObjectId_parse id_str = None →
  oid id_str w = (Raise (HTTPException 400 "Invalid ID format"), w).
Proof. unfold oid. by intros ->. Qed.

(** C8: for a well-formed event id that no event record carries,
    [update_event] and [delete_event] both fail with a 404 and the store is
    left as it was. *)
Theorem event_not_found (event_id : string) (o : ObjectId)
    (payload : EventCreateRequest) (s : Store) (tr : list op) :
  ObjectId_of_str event_id = Some o →
  (∀ d : dict, d ∈ c_event s → d !! "_id" ≠ Some (VOid o)) →
  update_event event_id payload (configured s tr) =
    (Raise (HTTPException 404 "Event not found"),
     configured s (tr ++ [OpUpdateOne event]))
  ∧ delete_event event_id (configured s tr) =
      (Raise (HTTPException 404 "Event not found"),
       configured s (tr ++ [OpDeleteOne event])).
Proof.
  intros Hid Hnone. apply no_match_by_field in Hnone. split.
  - unfold update_event.
    erewrite bind_Return by apply collection_configured.
    erewrite bind_Return by (by apply oid_valid).
    erewrite bind_Return by apply update_one_configured.
    cbn [get_coll]. rewrite coll_update_one_no_match by done.
    cbn [fst snd]. change (c_event s) with (get_coll event s).
    by rewrite set_coll_get_coll.
  - unfold delete_event.
    erewrite bind_Return by apply collection_configured.
    erewrite bind_Return by (by apply oid_valid).
    erewrite bind_Return by apply delete_one_configured.
    cbn [get_coll]. rewrite coll_delete_one_no_match by done.
    cbn [fst snd]. change (c_event s) with (get_coll event s).
    by rewrite set_coll_get_coll.
Qed.

(** ** Updating a user *)

(** C9: an update-user request that supplies none of [name], [email],
    [mobile], [roll] never changes the world (no store operation is issued,
    no record is touched), and with a configured store it is answered by
    [{"updated": False}]. *)
Theorem update_user_no_fields (now : datetime) (user_id : string) :
  (∀ w : World, (update_user now user_id no_fields w).2 = w)
  ∧ (∀ (s : Store) (tr : list op),
       update_user now user_id no_fields (configured s tr) =
         (Return (Some unchanged_ack), configured s tr)).
Proof.
  split.
  - intros [[s|] tr]; reflexivity.
  - reflexivity.
Qed.

(** C10 as amended: with a configured store and an id string that
    [ObjectId] rejects (it has not 24 characters, or is not made of pairs of
    hexadecimal digits with whitespace between pairs at most),
    [update_event], [delete_event] and [update_user] with at least one
    supplied field fail with a 400 "Invalid ID format" before any store
    operation; [update_user] without a supplied field answers
    [{"updated": False}] and does not decode the id. *)
Theorem invalid_id_rejected (now : datetime) (id : string)
    (fields : UpdateUserRequest) (ev : EventCreateRequest) (s : Store)
    (tr : list op) :
  ObjectId_parse id = None →
  UpdateUserRequest_dump_exclude_none fields ≠ ∅ →
  update_user now id fields (configured s tr) =
    (Raise (HTTPException 400 "Invalid ID format"), configured s tr)
  ∧ update_event id ev (configured s tr) =
      (Raise (HTTPException 400 "Invalid ID format"), configured s tr)
  ∧ delete_event id (configured s tr) =
      (Raise (HTTPException 400 "Invalid ID format"), configured s tr)
  ∧ update_user now id no_fields (configured s tr) =
      (Return (Some unchanged_ack), configured s tr).
Proof.
  intros Hid Hfields. repeat split.
  - unfold update_user.
    erewrite bind_Return by apply db_is_None_configured.
    destruct (decide (UpdateUserRequest_dump_exclude_none fields = ∅));
      first done.
    erewrite bind_Return by apply collection_configured.
    by erewrite bind_Raise by (by apply oid_invalid).
  - unfold update_event.
    erewrite bind_Return by apply collection_configured.
    by erewrite bind_Raise by (by apply oid_invalid).
  - unfold delete_event.
    erewrite bind_Return by apply collection_configured.
    by erewrite bind_Raise by (by apply oid_invalid).
Qed.

(** ** Without a configured store *)

(** C5, evaluated on the code: without a configured store [demo_login] and
    [update_user] answer with the 500 "Database not configured", while the
    other handlers that reach the store end in an exception no handler code
    catches: [AttributeError] from the access to [db], or the adapter's
    [StoreUnavailable]. *)
Theorem unconfigured_store_responses (now : datetime) (tr : list op) :
  (∀ p, demo_login now p (unconfigured tr) =
          (Raise (HTTPException 500 "Database not configured"), unconfigured tr))
  ∧ (∀ id p, update_user now id p (unconfigured tr) =
          (Raise (HTTPException 500 "Database not configured"), unconfigured tr))
  ∧ (∀ limit, list_events limit (unconfigured tr) =
          (Raise (AttributeError "NoneType"), unconfigured tr))
  ∧ (∀ limit, recent_attendance limit (unconfigured tr) =
          (Raise (AttributeError "NoneType"), unconfigured tr))
  ∧ (∀ id p, update_event id p (unconfigured tr) =
          (Raise (AttributeError "NoneType"), unconfigured tr))
  ∧ (∀ id, delete_event id (unconfigured tr) =
          (Raise (AttributeError "NoneType"), unconfigured tr))
  ∧ (∀ p, set_manual_percentage now p (unconfigured tr) =
          (Raise (AttributeError "NoneType"), unconfigured tr))
  ∧ (∀ roll, attendance_summary roll (unconfigured tr) =
          (Raise (AttributeError "NoneType"), unconfigured tr))
  ∧ (∀ d e es, mark_attendance now (mk_AttendanceMarkRequest d (e :: es))
                               (unconfigured tr) =
          (Raise StoreUnavailable, unconfigured tr))
  ∧ (∀ p, create_event now p (unconfigured tr) =
          (Raise StoreUnavailable, unconfigured tr)).
Proof.
  repeat split.
  intros [title [description|] date [location|] []]; reflexivity.
Qed.

(** ** Identifier strings *)

Lemma hex_val_hex_char (n : N) : hex_val (hex_char n) = Some (n mod 16)%N.
Proof.
  unfold hex_char.
  assert (Hlt : (n mod 16 < 16)%N) by (apply N.mod_upper_bound; lia).
  destruct (n mod 16)%N as [|d]; first done.
  do 5 (destruct d as [d|d|]; try (vm_compute; reflexivity); try lia).
Qed.

Lemma hex_parse_app (s1 s2 : string) :
  ∀ acc : N,
    hex_parse acc (s1 +:+ s2) = hex_parse acc s1 ≫= λ a, hex_parse a s2.
Proof.
  induction s1 as [|c s1 IH]; intros acc; first done.
  simpl. destruct (hex_val c); simpl; last done.
  apply IH.
Qed.

Lemma hex_digits_length (w : nat) : ∀ n : N, String.length (hex_digits w n) = w.
Proof.
  induction w as [|w IH]; intros n; first done.
  cbn [hex_digits].
  assert (Happ : ∀ a b, String.length (a +:+ b)
                        = (String.length a + String.length b)%nat).
  { intros a b. induction a as [|c a IHa]; first done.
    simpl. simpl in IHa. by f_equal. }
  rewrite Happ, IH. simpl. lia.
Qed.

Lemma hex_parse_hex_digits (w : nat) :
  ∀ acc n : N,
    hex_parse acc (hex_digits w n)
    = Some (acc * 16 ^ N.of_nat w + n mod 16 ^ N.of_nat w)%N.
Proof.
  induction w as [|w IH]; intros acc n.
  - cbn [hex_digits hex_parse N.of_nat]. f_equal.
    rewrite N.pow_0_r, N.mod_1_r. lia.
  - cbn [hex_digits]. rewrite hex_parse_app, IH. cbn [mbind option_bind].
    cbn [hex_parse]. rewrite hex_val_hex_char. f_equal.
    rewrite Nat2N.inj_succ, N.pow_succ_r', N.Div0.mod_mul_r. lia.
Qed.

Lemma ObjectId_of_oid_str (o : ObjectId) :
  ObjectId_of_str (oid_str o) = Some (o mod 16 ^ 24)%N.
Proof.
  unfold ObjectId_of_str, oid_str. rewrite hex_digits_length.
  cbn [Nat.eqb]. rewrite hex_parse_hex_digits. f_equal.
Qed.

Lemma ObjectId_parse_oid_str (o : ObjectId) :
  ObjectId_parse (oid_str o) = Some (VOid (o mod 16 ^ 24)%N).
Proof. apply ObjectId_parse_of_str, ObjectId_of_oid_str. Qed.

(** ** Demo login *)

Lemma stored_lookup (upd : dict) (k : string) :
  stored upd !! k = to_bson <$> upd !! k.
Proof. apply lookup_fmap. Qed.

Lemma stored_None (upd : dict) (k : string) :
  upd !! k = None → stored upd !! k = None.
Proof. intros Hk. by rewrite stored_lookup, Hk. Qed.

Lemma coll_find_one_none (q : query) (c : list dict) :
  Forall (λ d, matches q d = false) c → coll_find_one q c = None.
Proof.
  unfold coll_find_one. induction 1 as [|d c Hd _ IH]; first done.
  cbn [List.find]. by rewrite Hd.
Qed.

Lemma coll_find_one_split (q : query) (l1 l2 : list dict) (u : dict) :
  Forall (λ d, matches q d = false) l1 → matches q u = true →
  coll_find_one q (l1 ++ u :: l2) = Some u.
Proof.
  unfold coll_find_one. intros Hl1 Hu.
  induction Hl1 as [|d l1 Hd _ IH]; cbn [app List.find].
  - by rewrite Hu.
  - by rewrite Hd.
Qed.

Lemma coll_update_one_split (q : query) (upd : dict) (l1 l2 : list dict)
    (u : dict) :
  Forall (λ d, matches q d = false) l1 → matches q u = true →
  coll_update_one q upd (l1 ++ u :: l2) = (1, l1 ++ (stored upd ∪ u) :: l2).
Proof.
  intros Hl1 Hu.
  induction Hl1 as [|d l1 Hd _ IH]; cbn [app coll_update_one].
  - by rewrite Hu.
  - by rewrite Hd, IH.
Qed.

Lemma fresh_oid_bound (c : list dict) (d : dict) :
  d ∈ c → (oid_of d < fresh_oid c)%N.
Proof.
  unfold fresh_oid. induction 1 as [d c|d d' c _ IH]; cbn [foldr]; lia.
Qed.

Lemma fresh_oid_fresh (c : list dict) (d : dict) :
  d ∈ c → d !! "_id" ≠ Some (VOid (fresh_oid c)).
Proof.
  intros Hd Hid. apply fresh_oid_bound in Hd.
  unfold oid_of in Hd. rewrite Hid in Hd. lia.
Qed.

Lemma login_data_payload (now : datetime) (p : DemoLoginRequest) :
  matches_payload p (login_data now p).
Proof. by repeat split. Qed.

Lemma to_bson_opt_str (o : option string) : to_bson (opt_str o) = opt_str o.
Proof. by destruct o. Qed.

Lemma stored_login_data_payload (now : datetime) (p : DemoLoginRequest) :
  matches_payload p (stored (login_data now p)).
Proof.
  unfold matches_payload. rewrite !stored_lookup.
  destruct (login_data_payload now p) as (-> & -> & -> & -> & ->).
  cbn. by rewrite !to_bson_opt_str.
Qed.

Lemma login_data_fields (now : datetime) (p : DemoLoginRequest) (k : string) :
  k ∉ login_fields → login_data now p !! k = None.
Proof.
  unfold login_fields, login_data, DemoLoginRequest_dump. intros Hk.
  rewrite !not_elem_of_cons in Hk. destruct Hk as (?&?&?&?&?&?&_).
  rewrite !lookup_insert_ne by done. by apply lookup_singleton_ne.
Qed.

Lemma CampusUser_new_login_data (now : datetime) (p : DemoLoginRequest)
    (w : World) :
  CampusUser_new (login_data now p) w = (Return (user_of p), w).
Proof. destruct p as [[] n e m l]; by destruct m, l. Qed.

Lemma CampusUser_dump_user_of (p : DemoLoginRequest) :
  CampusUser_dump (user_of p) = DemoLoginRequest_dump p.
Proof. done. Qed.

(** The update path of [demo_login]: [u] is the first record with the
    payload's email and no earlier record shares its [_id]. *)
Lemma demo_login_existing (now : datetime) (p : DemoLoginRequest) (s : Store)
    (tr : list op) (l1 l2 : list dict) (u : dict) (i : value) :
  c_campususer s = l1 ++ u :: l2 →
  (∀ d : dict, d ∈ l1 → d !! "email" ≠ Some (VStr (dl_email p))) →
  u !! "email" = Some (VStr (dl_email p)) →
  u !! "_id" = Some i →
  (∀ d : dict, d ∈ l1 → d !! "_id" ≠ Some i) →
  demo_login now p (configured s tr) =
    (Return (serialize_id (Some (stored (login_data now p) ∪ u))),
     configured (set_coll campususer (l1 ++ (stored (login_data now p) ∪ u) :: l2) s)
                (tr ++ [OpFindOne campususer; OpUpdateOne campususer;
                        OpFindOne campususer])).
Proof.
  intros Hs Hl1 Hu Hid Hl1id.
  apply no_match_by_field in Hl1, Hl1id.
  assert (Hmu : matches [("email", VStr (dl_email p))] u = true)
    by by apply matches_1.
  assert (Hmi : matches [("_id", i)] u = true) by by apply matches_1.
  assert (Hne : u ≠ ∅) by (intros ->; by rewrite lookup_empty in Hu).
  unfold demo_login.
  erewrite bind_Return by apply db_is_None_configured. cbv beta iota.
  erewrite bind_Return by apply find_one_configured.
  cbn [get_coll]. rewrite Hs, (coll_find_one_split _ _ _ _ Hl1 Hmu).
  unfold truthy. destruct (decide (u = ∅)); first done.
  unfold getitem. rewrite Hid.
  erewrite bind_Return by done.
  erewrite bind_Return by apply update_one_configured.
  cbn [get_coll]. rewrite Hs, (coll_update_one_split _ _ _ _ _ Hl1id Hmi).
  erewrite bind_Return by done.
  erewrite bind_Return by apply find_one_configured.
  rewrite get_coll_set_coll. cbn [fst snd].
  rewrite (coll_find_one_split _ l1 l2 (stored (login_data now p) ∪ u) Hl1id).
  - rewrite <- !app_assoc. done.
  - apply matches_1. rewrite lookup_union_r; first done.
    apply stored_None, login_data_fields. unfold login_fields.
    rewrite !not_elem_of_cons. repeat split; try done. apply not_elem_of_nil.
Qed.

(** The insert path of [demo_login]: no record has the payload's email. *)
Lemma demo_login_new (now : datetime) (p : DemoLoginRequest) (s : Store)
    (tr : list op) :
  (∀ d : dict, d ∈ c_campususer s → d !! "email" ≠ Some (VStr (dl_email p))) →
  ∃ r : option dict,
    demo_login now p (configured s tr) =
      (Return r,
       configured
         (set_coll campususer
            (c_campususer s
               ++ [created now campususer (DemoLoginRequest_dump p) s]) s)
         (tr ++ [OpFindOne campususer; OpInsertOne campususer;
                 OpFindOne campususer])).
Proof.
  intros Hnone. apply no_match_by_field in Hnone.
  unfold demo_login.
  erewrite bind_Return by apply db_is_None_configured. cbv beta iota.
  erewrite bind_Return by apply find_one_configured.
  cbn [get_coll]. rewrite (coll_find_one_none _ _ Hnone).
  fold (login_data now p).
  erewrite bind_Return by apply CampusUser_new_login_data.
  erewrite bind_Return by apply create_document_configured.
  erewrite bind_Return by apply collection_configured.
  unfold ObjectId_new. rewrite ObjectId_parse_oid_str.
  erewrite bind_Return by done.
  erewrite bind_Return by apply find_one_configured.
  eexists. rewrite CampusUser_dump_user_of. cbn [get_coll].
  rewrite <- !app_assoc. done.
Qed.

Lemma login_data_no_id (now : datetime) (p : DemoLoginRequest) :
  login_data now p !! "_id" = None.
Proof.
  apply login_data_fields. unfold login_fields.
  rewrite !not_elem_of_cons. repeat split; try done. apply not_elem_of_nil.
Qed.

Lemma matches_payload_union (now : datetime) (p : DemoLoginRequest) (u : dict) :
  matches_payload p (stored (login_data now p) ∪ u).
Proof.
  destruct (stored_login_data_payload now p) as (?&?&?&?&?).
  repeat split; by apply lookup_union_Some_l.
Qed.

(** C3 as amended: when the payload's email matches a stored user record,
    [demo_login] rewrites that record only; it sets all five payload fields
    ([mobile] and [roll] to null when the request omits them) and
    [updated_at] (the clock reading, kept to the millisecond), and every
    other field of the record keeps its value. *)
Theorem demo_login_sets_payload_fields (now : datetime) (p : DemoLoginRequest)
    (s : Store) (tr : list op) (l1 l2 : list dict) (u : dict) (i : value) :
  c_campususer s = l1 ++ u :: l2 →
  (∀ d : dict, d ∈ l1 → d !! "email" ≠ Some (VStr (dl_email p))) →
  u !! "email" = Some (VStr (dl_email p)) →
  u !! "_id" = Some i →
  (∀ d : dict, d ∈ l1 → d !! "_id" ≠ Some i) →
  ∃ (r : option dict) (u' : dict),
    demo_login now p (configured s tr) =
      (Return r,
       configured (set_coll campususer (l1 ++ u' :: l2) s)
                  (tr ++ [OpFindOne campususer; OpUpdateOne campususer;
                          OpFindOne campususer]))
    ∧ matches_payload p u'
    ∧ u' !! "updated_at" = Some (VDatetime (to_millis now))
    ∧ ∀ k : string, k ∉ login_fields → u' !! k = u !! k.
Proof.
  intros Hs Hl1 Hu Hid Hl1id.
  exists (serialize_id (Some (stored (login_data now p) ∪ u))),
         (stored (login_data now p) ∪ u).
  split; first by apply (demo_login_existing now p s tr l1 l2 u i).
  split; first apply matches_payload_union.
  split; first by apply lookup_union_Some_l.
  intros k Hk. apply lookup_union_r. by apply stored_None, login_data_fields.
Qed.

(** ** Demo login twice *)

Lemma filter_nil_Forall {A} (P : A → Prop) `{!∀ x, Decision (P x)}
    (l : list A) :
  filter P l = [] → Forall (λ x, ¬ P x) l.
Proof.
  induction l as [|x l IH]; first by constructor.
  rewrite filter_cons. destruct (decide (P x)); first done.
  intros Hl. constructor; auto.
Qed.

Lemma Forall_filter_nil {A} (P : A → Prop) `{!∀ x, Decision (P x)}
    (l : list A) :
  Forall (λ x, ¬ P x) l → filter P l = [].
Proof.
  induction 1 as [|x l Hx _ IH]; first done.
  rewrite filter_cons. by rewrite decide_False.
Qed.

Lemma filter_singleton_split {A} (P : A → Prop) `{!∀ x, Decision (P x)}
    (l : list A) (u : A) :
  filter P l = [u] →
  ∃ l1 l2, l = l1 ++ u :: l2
           ∧ Forall (λ x, ¬ P x) l1 ∧ Forall (λ x, ¬ P x) l2 ∧ P u.
Proof.
  induction l as [|x l IH]; first done.
  rewrite filter_cons. destruct (decide (P x)) as [HP|HP].
  - intros [= -> Hl]. exists [], l. repeat split; try done.
    by apply (filter_nil_Forall P).
  - intros Hl. destruct (IH Hl) as (l1 & l2 & -> & H1 & H2 & Hu).
    exists (x :: l1), l2. repeat split; try done. by constructor.
Qed.

Lemma filter_split_singleton {A} (P : A → Prop) `{!∀ x, Decision (P x)}
    (l1 l2 : list A) (u : A) :
  Forall (λ x, ¬ P x) l1 → Forall (λ x, ¬ P x) l2 → P u →
  filter P (l1 ++ u :: l2) = [u].
Proof.
  intros H1 H2 Hu. rewrite filter_app, filter_cons, decide_True by done.
  by rewrite !Forall_filter_nil.
Qed.

Lemma ids_unique_split (l1 l2 : list dict) (u : dict) :
  ids_unique (l1 ++ u :: l2) →
  ∃ i : value, u !! "_id" = Some i ∧ ∀ d : dict, d ∈ l1 → d !! "_id" ≠ Some i.
Proof.
  intros [Hall Hnd].
  apply Forall_app in Hall as [_ Hall]. apply Forall_cons in Hall as [[i Hi] _].
  exists i. split; first done. intros d Hd Hdi.
  rewrite fmap_app in Hnd. apply NoDup_app in Hnd as (_ & Hdisj & _).
  apply (Hdisj (Some i)).
  - apply list_elem_of_fmap. by exists d.
  - rewrite fmap_cons, Hi. apply list_elem_of_here.
Qed.

(** C4 as amended: on a store that honours the [_id] guarantee and holds at
    most one user record with the payloads' email, two demo logins in
    sequence with that email both return, and leave exactly one record with
    that email, whose fields are those of the second payload. *)
Theorem demo_login_twice (now1 now2 : datetime) (p1 p2 : DemoLoginRequest)
    (s : Store) (tr : list op) :
  dl_email p1 = dl_email p2 →
  ids_unique (c_campususer s) →
  (length (with_email (dl_email p2) (c_campususer s)) ≤ 1)%nat →
  ∃ (r1 : option dict) (w1 : World) (s2 : Store) (tr2 : list op) (u : dict),
    demo_login now1 p1 (configured s tr) = (Return r1, w1)
    ∧ demo_login now2 p2 w1 = (Return (serialize_id (Some u)), configured s2 tr2)
    ∧ with_email (dl_email p2) (c_campususer s2) = [u]
    ∧ matches_payload p2 u.
Proof.
  intros He Huniq Hle.
  destruct (with_email (dl_email p2) (c_campususer s)) as [|u [|u2 rest]] eqn:Hf;
    last (cbn in Hle; lia).
  - (* no record yet: insert, then update *)
    apply (filter_nil_Forall _) in Hf. rewrite Forall_forall in Hf.
    destruct (demo_login_new now1 p1 s tr) as [r1 Hrun1].
    { rewrite He. exact Hf. }
    set (c1 := created now1 campususer (DemoLoginRequest_dump p1) s) in *.
    set (s1 := set_coll campususer (c_campususer s ++ [c1]) s) in *.
    assert (Hc1e : c1 !! "email" = Some (VStr (dl_email p2))).
    { rewrite <- He. done. }
    assert (Hc1i : c1 !! "_id" = Some (VOid (fresh_oid (c_campususer s)))).
    { unfold c1, created. apply lookup_insert_eq. }
    eexists r1, _, _, _, (stored (login_data now2 p2) ∪ c1).
    split; first exact Hrun1.
    split.
    { apply (demo_login_existing now2 p2 s1 _ (c_campususer s) [] c1
               (VOid (fresh_oid (c_campususer s)))); try done.
      intros d Hd. by apply fresh_oid_fresh. }
    split; last apply matches_payload_union.
    rewrite get_coll_set_coll_users. unfold with_email.
    apply filter_split_singleton.
    + by apply Forall_forall.
    + constructor.
    + destruct (matches_payload_union now2 p2 c1) as (?&?&?&?&?). done.
  - (* one record: update twice *)
    apply (filter_singleton_split _) in Hf as (l1 & l2 & Hs & Hl1 & Hl2 & Hu).
    rewrite Hs in Huniq. apply ids_unique_split in Huniq as (i & Hi & Hl1i).
    rewrite Forall_forall in Hl1.
    set (u1 := stored (login_data now1 p1) ∪ u).
    set (s1 := set_coll campususer (l1 ++ u1 :: l2) s).
    assert (Hu1e : u1 !! "email" = Some (VStr (dl_email p2))).
    { rewrite <- He. by destruct (matches_payload_union now1 p1 u) as (?&?&?&?&?). }
    assert (Hu1i : u1 !! "_id" = Some i).
    { unfold u1. rewrite lookup_union_r; first done.
      apply stored_None, login_data_no_id. }
    eexists _, _, _, _, (stored (login_data now2 p2) ∪ u1).
    split.
    { apply (demo_login_existing now1 p1 s tr l1 l2 u i); try done;
        by rewrite He. }
    split.
    { by apply (demo_login_existing now2 p2 s1 _ l1 l2 u1 i). }
    split; last apply matches_payload_union.
    rewrite get_coll_set_coll_users. unfold with_email.
    apply filter_split_singleton; try done.
    + by apply Forall_forall.
    + by destruct (matches_payload_union now2 p2 u1) as (?&?&?&?&?).
Qed.

(** * Further properties of the helpers and handlers *)

(** ** [serialize_id], field by field *)

(** X1: what [serialize_id] returns, field by field: [_id] is gone, [id] is
    [str(_id)] when the document has an [_id] (replacing any earlier [id])
    and the converted old [id] otherwise, and every other field is kept,
    dates and datetimes in ISO form, the rest untouched. *)
Theorem serialize_id_fields (d0 : dict) :
  ∃ d' : dict,
    serialize_id (Some d0) = Some d'
    ∧ d' !! "_id" = None
    ∧ d' !! "id" = match d0 !! "_id" with
                   | Some v => Some (VStr (py_str v))
                   | None => isoformat <$> d0 !! "id"
                   end
    ∧ ∀ k : string, k ≠ "_id" → k ≠ "id" → d' !! k = isoformat <$> d0 !! k.
Proof.
  destruct (decide (d0 = ∅)) as [->|Hne].
  { exists ∅. by repeat split. }
  exists (isoformat <$> rename_id d0). split; first by apply serialize_id_Some.
  split; first by rewrite lookup_fmap, rename_id_no_id.
  unfold rename_id. destruct (d0 !! "_id") as [v|] eqn:Hid.
  - split; first by rewrite lookup_fmap, lookup_insert_eq.
    intros k Hk1 Hk2.
    by rewrite !lookup_fmap, lookup_insert_ne, lookup_delete_ne.
  - split; first by rewrite lookup_fmap.
    intros k _ _. by rewrite lookup_fmap.
Qed.

Lemma serialize_id_total (d0 : dict) :
  ∃ d' : dict, serialize_id (Some d0) = Some d'
               ∧ (d0 = ∅ ∧ d' = ∅ ∨ d0 ≠ ∅ ∧ d' = isoformat <$> rename_id d0).
Proof.
  destruct (decide (d0 = ∅)) as [->|Hne].
  - exists ∅. split; first done. by left.
  - exists (isoformat <$> rename_id d0). split; first by apply serialize_id_Some.
    by right.
Qed.

Lemma serialize_id_output_external (d0 d' : dict) :
  serialize_id (Some d0) = Some d' → external_form d'.
Proof.
  destruct (serialize_id_total d0) as (d1 & Hd1 & [[_ ->]|[_ ->]]);
    rewrite Hd1; intros [= <-].
  - split; first done. intros k v. by rewrite lookup_empty.
  - split; first by rewrite lookup_fmap, rename_id_no_id.
    intros k v. rewrite lookup_fmap.
    destruct (rename_id d0 !! k) as [v0|]; last done.
    intros [= <-]. apply isoformat_not_temporal.
Qed.

(** X2: whatever the document, the output of [serialize_id] is in external
    form: it has no [_id] key and none of its values is a date or a
    datetime. *)
Theorem serialize_id_external (d0 d' : dict) :
  serialize_id (Some d0) = Some d' → external_form d'.
Proof. apply serialize_id_output_external. Qed.

(** X3: the documents [serialize_id] returns unchanged are exactly those in
    external form. *)
Theorem serialize_id_fixpoint (d : dict) :
  serialize_id (Some d) = Some d ↔ external_form d.
Proof.
  split; first apply serialize_id_output_external.
  intros [Hid Htemp].
  destruct (decide (d = ∅)) as [->|Hne]; first done.
  rewrite serialize_id_Some by done. f_equal.
  unfold rename_id. rewrite Hid.
  apply map_eq. intros k. rewrite lookup_fmap.
  destruct (d !! k) as [v|] eqn:Hk; last done.
  cbn. f_equal. apply isoformat_id. by apply (Htemp k).
Qed.

(** ** [oid] against [str] *)

(** X4: [oid] reads back what [str] printed: for every identifier of twelve
    bytes, [oid(str(o))] returns [o] and leaves the world alone. *)
Theorem oid_of_str_roundtrip (o : ObjectId) (w : World) :
  (o < 2 ^ 96)%N → oid (oid_str o) w = (Return (VOid o), w).
Proof.
  intros Ho. apply oid_valid. rewrite ObjectId_of_oid_str. f_equal.
  apply N.mod_small. by change (16 ^ 24)%N with (2 ^ 96)%N.
Qed.

(** ** What every handler keeps *)

#[local] Instance keeps_ids_preorder : PreOrder keeps_ids.
Proof. split; unfold keeps_ids; [intros o | intros o1 o2 o3]; tauto. Qed.

#[local] Instance records_extended_preorder : PreOrder records_extended.
Proof.
  split.
  - intros [s|]; cbn; [reflexivity | done].
  - intros [s1|] [s2|] [s3|] H12 H23; cbn in *; try done. by etrans.
Qed.

Lemma respects_ret {A} (R : relation (option Store)) `{!Reflexive R} (a : A) :
  respects R (ret a).
Proof. by intros w. Qed.

Lemma respects_raise {A} (R : relation (option Store)) `{!Reflexive R}
    (e : exn) :
  respects R (raise (A := A) e).
Proof. by intros w. Qed.

Lemma respects_bind {A B} (R : relation (option Store)) `{!Transitive R}
    (m : M A) (f : A → M B) :
  respects R m → (∀ a, respects R (f a)) → respects R (bind m f).
Proof.
  intros Hm Hf w. unfold bind. specialize (Hm w).
  destruct (m w) as [[a|e] w']; cbn in *; last done.
  by etrans; last apply Hf.
Qed.

Lemma respects_unchanged {A} (R : relation (option Store)) `{!Reflexive R}
    (m : M A) :
  (∀ w, (m w).2 = w) → respects R m.
Proof. intros Hm w. by rewrite Hm. Qed.

Lemma respects_store_op {A} (R : relation (option Store)) `{!Reflexive R}
    (o : op) (c : coll) (f : list dict → A * list dict) :
  (∀ s, R (Some s) (Some (set_coll c (f (get_coll c s)).2 s))) →
  respects R (store_op o c f).
Proof. intros Hf [[s|] tr]; cbn; [apply Hf | done]. Qed.

Lemma respects_read {A} (R : relation (option Store)) `{!Reflexive R}
    (o : op) (c : coll) (g : list dict → A) :
  respects R (store_op o c (λ l, (g l, l))).
Proof.
  apply respects_store_op; first done. intros s. cbn.
  by rewrite set_coll_get_coll.
Qed.

Lemma respects_getitem (R : relation (option Store)) `{!Reflexive R}
    (d : dict) (k : string) :
  respects R (getitem d k).
Proof. apply respects_unchanged; first done. intros w. unfold getitem. by destruct (d !! k). Qed.

Lemma respects_oid (R : relation (option Store)) `{!Reflexive R} (id : string) :
  respects R (oid id).
Proof.
  apply respects_unchanged; first done. intros w. unfold oid.
  by destruct (ObjectId_parse id).
Qed.

Lemma respects_ObjectId_new (R : relation (option Store)) `{!Reflexive R}
    (id : string) :
  respects R (ObjectId_new id).
Proof.
  apply respects_unchanged; first done. intros w. unfold ObjectId_new.
  by destruct (ObjectId_parse id).
Qed.

Lemma respects_validated {A} (R : relation (option Store)) `{!Reflexive R}
    (model : string) (o : option A) :
  respects R (validated model o).
Proof. apply respects_unchanged; first done. intros w. by destruct o. Qed.

Lemma respects_collection (R : relation (option Store)) `{!Reflexive R}
    (c : coll) :
  respects R (collection c).
Proof. apply respects_unchanged; first done. by intros [[s|] tr]. Qed.

Lemma respects_db_is_None (R : relation (option Store)) `{!Reflexive R} :
  respects R db_is_None.
Proof. by apply respects_unchanged. Qed.

(** One step through a handler body. [solve_write] settles the writes. *)
Ltac respects_step solve_write :=
  cbv zeta;
  lazymatch goal with
  | |- respects _ (bind _ _) => apply respects_bind; [ apply _ | | intros ? ]
  | |- respects _ (ret _) => solve [ apply respects_ret; apply _ ]
  | |- respects _ (raise _) => solve [ apply respects_raise; apply _ ]
  | |- respects _ (find_one _ _) => solve [ apply respects_read; apply _ ]
  | |- respects _ (count_documents _ _) => solve [ apply respects_read; apply _ ]
  | |- respects _ (find_sorted _ _ _ _) => solve [ apply respects_read; apply _ ]
  | |- respects _ (getitem _ _) => solve [ apply respects_getitem; apply _ ]
  | |- respects _ (oid _) => solve [ apply respects_oid; apply _ ]
  | |- respects _ (ObjectId_new _) => solve [ apply respects_ObjectId_new; apply _ ]
  | |- respects _ (collection _) => solve [ apply respects_collection; apply _ ]
  | |- respects _ db_is_None => solve [ apply respects_db_is_None; apply _ ]
  | |- respects _ (validated _ _) => solve [ apply respects_validated; apply _ ]
  | |- respects _ (CampusUser_new _) => solve [ apply respects_validated; apply _ ]
  | |- respects _ (Event_new _) => solve [ apply respects_validated; apply _ ]
  | |- respects _ (AttendanceOverride_new _) => solve [ apply respects_validated; apply _ ]
  | |- respects _ (if ?b then _ else _) => destruct b
  | |- respects _ (match ?x with _ => _ end) => destruct x
  | |- _ => solve_write
  end.

(** *** The [_id] guarantee *)

Lemma ids_unique_same_ids (c c' : list dict) :
  (λ d : dict, d !! "_id") <$> c' = (λ d : dict, d !! "_id") <$> c →
  ids_unique c → ids_unique c'.
Proof.
  unfold ids_unique. intros Heq [Hall Hnd]. rewrite Heq. split; last done.
  apply (Forall_fmap (λ d : dict, d !! "_id") is_Some) in Hall.
  apply (Forall_fmap (λ d : dict, d !! "_id") is_Some). by rewrite Heq.
Qed.

Lemma coll_update_one_ids (q : query) (upd : dict) (c : list dict) :
  upd !! "_id" = None →
  (λ d : dict, d !! "_id") <$> (coll_update_one q upd c).2
  = (λ d : dict, d !! "_id") <$> c.
Proof.
  intros Hupd. induction c as [|d c IH]; first done.
  cbn [coll_update_one]. destruct (matches q d); cbn [snd fmap list_fmap].
  - f_equal. by apply lookup_union_r, stored_None.
  - f_equal. apply IH.
Qed.

Lemma coll_delete_one_sublist (q : query) (c : list dict) :
  (coll_delete_one q c).2 `sublist_of` c.
Proof.
  induction c as [|d c IH]; first done.
  cbn [coll_delete_one]. destruct (matches q d); cbn [snd].
  - by apply sublist_cons.
  - by apply sublist_skip.
Qed.

Lemma ids_unique_sublist (c c' : list dict) :
  c' `sublist_of` c → ids_unique c → ids_unique c'.
Proof.
  intros Hsub [Hall Hnd]. split.
  - rewrite Forall_forall in Hall. apply Forall_forall. intros d Hd.
    apply Hall. by eapply elem_of_sublist.
  - apply (sublist_NoDup _ ((λ d : dict, d !! "_id") <$> c)); first done.
    by apply fmap_sublist.
Qed.

Lemma ids_unique_insert (d : dict) (c : list dict) :
  ids_unique c → ids_unique (coll_insert_one d c).2.
Proof.
  intros [Hall Hnd]. cbn. split.
  - apply Forall_app. split; first done.
    constructor; last done. rewrite lookup_insert_eq. by eexists.
  - rewrite fmap_app. apply NoDup_app. split; first done.
    split; last by apply NoDup_singleton.
    intros i Hi Hnew. cbn in Hnew. apply list_elem_of_singleton in Hnew.
    rewrite lookup_insert_eq in Hnew. subst i.
    apply list_elem_of_fmap in Hi as (d0 & Hd0 & Hin).
    by apply (fresh_oid_fresh c d0).
Qed.

Lemma store_ids_unique_set (c : coll) (l : list dict) (s : Store) :
  (ids_unique (get_coll c s) → ids_unique l) →
  store_ids_unique s → store_ids_unique (set_coll c l s).
Proof.
  intros Hl Hs c'. specialize (Hl (Hs c)).
  destruct c, c';
    first [ exact Hl | exact (Hs campususer) | exact (Hs event)
          | exact (Hs attendancerecord) | exact (Hs attendanceoverride) ].
Qed.

Lemma keeps_ids_update_one (c : coll) (q : query) (upd : dict) :
  upd !! "_id" = None → respects keeps_ids (update_one c q upd).
Proof.
  intros Hupd. apply respects_store_op; first apply _.
  intros s. unfold keeps_ids. cbn [db_ids_unique].
  apply store_ids_unique_set.
  apply ids_unique_same_ids. by apply coll_update_one_ids.
Qed.

Lemma keeps_ids_delete_one (c : coll) (q : query) :
  respects keeps_ids (delete_one c q).
Proof.
  apply respects_store_op; first apply _.
  intros s. unfold keeps_ids. cbn [db_ids_unique].
  apply store_ids_unique_set.
  apply ids_unique_sublist, coll_delete_one_sublist.
Qed.

Lemma keeps_ids_insert_one (c : coll) (d : dict) :
  respects keeps_ids (insert_one c d).
Proof.
  apply respects_store_op; first apply _.
  intros s. unfold keeps_ids. cbn [db_ids_unique].
  apply store_ids_unique_set, ids_unique_insert.
Qed.

Lemma keeps_ids_create_document (now : datetime) (c : coll) (record : dict) :
  respects keeps_ids (create_document now c record).
Proof.
  unfold create_document.
  repeat respects_step ltac:(by apply keeps_ids_insert_one).
Qed.

Lemma UpdateUserRequest_dump_no_id (p : UpdateUserRequest) :
  UpdateUserRequest_dump_exclude_none p !! "_id" = None.
Proof. by destruct p as [[?|] [?|] [?|] [?|]]. Qed.

Ltac keeps_ids_write :=
  first
    [ by apply keeps_ids_create_document
    | by apply keeps_ids_delete_one
    | apply keeps_ids_update_one; try first [ apply login_data_no_id | done ] ].

Lemma keeps_ids_mark_entries (now : datetime) (d : date)
    (entries : list AttendanceMark) :
  ∀ acc, respects keeps_ids (mark_entries now d entries acc).
Proof.
  induction entries as [|e rest IH]; intros acc; cbn [mark_entries].
  - apply respects_ret. apply _.
  - apply respects_bind; [apply _ | apply keeps_ids_create_document | ].
    intros a. apply IH.
Qed.

(** X5: every route handler keeps the store's [_id] guarantee: if, before
    the request, every document of every collection has an [_id] and no two
    documents of a collection share one, the same holds afterwards, whether
    the handler returns or raises. *)
Theorem handlers_keep_ids_unique (now : datetime) :
  (∀ p, respects keeps_ids (demo_login now p))
  ∧ (∀ id p, respects keeps_ids (update_user now id p))
  ∧ (∀ limit, respects keeps_ids (list_events limit))
  ∧ (∀ p, respects keeps_ids (create_event now p))
  ∧ (∀ id p, respects keeps_ids (update_event id p))
  ∧ (∀ id, respects keeps_ids (delete_event id))
  ∧ (∀ p, respects keeps_ids (mark_attendance now p))
  ∧ (∀ limit, respects keeps_ids (recent_attendance limit))
  ∧ (∀ p, respects keeps_ids (set_manual_percentage now p))
  ∧ (∀ roll, respects keeps_ids (attendance_summary roll)).
Proof.
  repeat split.
  - intros p. unfold demo_login. repeat respects_step keeps_ids_write.
  - intros id p. unfold update_user. repeat respects_step keeps_ids_write.
    rewrite lookup_insert_ne by done. apply UpdateUserRequest_dump_no_id.
  - intros limit. unfold list_events. repeat respects_step keeps_ids_write.
  - intros p. unfold create_event. repeat respects_step keeps_ids_write.
  - intros id p. unfold update_event. repeat respects_step keeps_ids_write.
  - intros id. unfold delete_event. repeat respects_step keeps_ids_write.
  - intros p. unfold mark_attendance. repeat respects_step keeps_ids_write.
    apply keeps_ids_mark_entries.
  - intros limit. unfold recent_attendance. repeat respects_step keeps_ids_write.
  - intros p. unfold set_manual_percentage. repeat respects_step keeps_ids_write.
  - intros roll. unfold attendance_summary. repeat respects_step keeps_ids_write.
Qed.

(** *** Attendance records are append-only *)

Lemma records_extended_insert_one (c : coll) (d : dict) :
  respects records_extended (insert_one c d).
Proof.
  apply respects_store_op; first apply _.
  intros s. destruct c; cbn; try reflexivity. by apply prefix_app_r.
Qed.

Lemma records_extended_create_document (now : datetime) (c : coll)
    (record : dict) :
  respects records_extended (create_document now c record).
Proof.
  unfold create_document.
  repeat respects_step ltac:(by apply records_extended_insert_one).
Qed.

Lemma records_extended_mark_entries (now : datetime) (d : date)
    (entries : list AttendanceMark) :
  ∀ acc, respects records_extended (mark_entries now d entries acc).
Proof.
  induction entries as [|e rest IH]; intros acc; cbn [mark_entries].
  - apply respects_ret. apply _.
  - apply respects_bind;
      [apply _ | apply records_extended_create_document | ].
    intros a. apply IH.
Qed.

#[local] Instance records_kept_preorder : PreOrder records_kept.
Proof.
  split; unfold records_kept; [intros o | intros o1 o2 o3]; congruence.
Qed.

Lemma records_kept_other {A} (o : op) (c : coll)
    (f : list dict → A * list dict) :
  c ≠ attendancerecord → respects records_kept (store_op o c f).
Proof.
  intros Hc. apply respects_store_op; first apply _.
  intros s. by destruct c.
Qed.

Lemma records_kept_create_document (now : datetime) (c : coll)
    (record : dict) :
  c ≠ attendancerecord → respects records_kept (create_document now c record).
Proof.
  intros Hc. unfold create_document.
  repeat respects_step ltac:(by apply records_kept_other).
Qed.

Ltac records_kept_write :=
  first
    [ by apply records_kept_create_document
    | by apply records_kept_other ].

(** X6: attendance records are append-only: [mark_attendance] leaves the
    attendance records that were stored before in place, in order and
    unmodified, its new ones coming after them; every other handler leaves
    the attendance records exactly as they were. Both hold whatever the
    request and its outcome. *)
Theorem attendance_records_append_only (now : datetime) :
  (∀ p, respects records_extended (mark_attendance now p))
  ∧ (∀ p, respects records_kept (demo_login now p))
  ∧ (∀ id p, respects records_kept (update_user now id p))
  ∧ (∀ limit, respects records_kept (list_events limit))
  ∧ (∀ p, respects records_kept (create_event now p))
  ∧ (∀ id p, respects records_kept (update_event id p))
  ∧ (∀ id, respects records_kept (delete_event id))
  ∧ (∀ limit, respects records_kept (recent_attendance limit))
  ∧ (∀ p, respects records_kept (set_manual_percentage now p))
  ∧ (∀ roll, respects records_kept (attendance_summary roll)).
Proof.
  repeat split; intros.
  - unfold mark_attendance.
    repeat respects_step ltac:(by apply records_extended_mark_entries).
  - unfold demo_login. repeat respects_step records_kept_write.
  - unfold update_user. repeat respects_step records_kept_write.
  - unfold list_events. repeat respects_step records_kept_write.
  - unfold create_event. repeat respects_step records_kept_write.
  - unfold update_event. repeat respects_step records_kept_write.
  - unfold delete_event. repeat respects_step records_kept_write.
  - unfold recent_attendance. repeat respects_step records_kept_write.
  - unfold set_manual_percentage. repeat respects_step records_kept_write.
  - unfold attendance_summary. repeat respects_step records_kept_write.
Qed.

(** *** The reading handlers *)

(** X7: the three reading handlers, [list_events], [recent_attendance] and
    [attendance_summary], never change the store, whatever it holds and
    whether or not it is configured. *)
Theorem reading_handlers_keep_store (w : World) :
  (∀ limit, db (list_events limit w).2 = db w)
  ∧ (∀ limit, db (recent_attendance limit w).2 = db w)
  ∧ (∀ roll, db (attendance_summary roll w).2 = db w).
Proof.
  assert (Hsym : ∀ A (m : M A), respects eq m → db (m w).2 = db w).
  { intros A m Hm. symmetry. apply Hm. }
  repeat split; intros; apply Hsym.
  - unfold list_events. repeat respects_step fail.
  - unfold recent_attendance. repeat respects_step fail.
  - unfold attendance_summary. repeat respects_step fail.
Qed.

(** ** Updating users and events that exist *)

Lemma set_some_lookup (k k' : string) (o : option string) (d : dict) :
  set_some k o d !! k' = if decide (k = k') then patched o (d !! k') else d !! k'.
Proof.
  unfold set_some, patched. destruct o as [x|].
  - rewrite lookup_insert. by destruct (decide (k = k')).
  - by destruct (decide (k = k')).
Qed.

Lemma user_updates_lookup (now : datetime) (p : UpdateUserRequest) (u : dict) :
  (user_updates now p ∪ u) !! "updated_at" = Some (VDatetime now)
  ∧ (user_updates now p ∪ u) !! "name" = patched (uu_name p) (u !! "name")
  ∧ (user_updates now p ∪ u) !! "email" = patched (uu_email p) (u !! "email")
  ∧ (user_updates now p ∪ u) !! "mobile" = patched (uu_mobile p) (u !! "mobile")
  ∧ (user_updates now p ∪ u) !! "roll" = patched (uu_roll p) (u !! "roll")
  ∧ ∀ k : string, k ∉ user_fields → (user_updates now p ∪ u) !! k = u !! k.
Proof.
  assert (Hl : ∀ k, k ≠ "updated_at" →
            (user_updates now p ∪ u) !! k
            = match UpdateUserRequest_dump_exclude_none p !! k with
              | Some v => Some v
              | None => u !! k
              end).
  { intros k Hk. rewrite lookup_union. unfold user_updates.
    rewrite lookup_insert_ne by done.
    destruct (UpdateUserRequest_dump_exclude_none p !! k), (u !! k); done. }
  split; first by apply lookup_union_Some_l, lookup_insert_eq.
  destruct p as [n e m l].
  repeat split.
  - rewrite Hl by done. by destruct n, e, m, l.
  - rewrite Hl by done. by destruct n, e, m, l.
  - rewrite Hl by done. by destruct n, e, m, l.
  - rewrite Hl by done. by destruct n, e, m, l.
  - intros k Hk. unfold user_fields in Hk.
    rewrite !not_elem_of_cons in Hk. destruct Hk as (?&?&?&?&?&_).
    rewrite Hl by done. unfold UpdateUserRequest_dump_exclude_none.
    cbn [uu_name uu_email uu_mobile uu_roll].
    rewrite !set_some_lookup, lookup_empty.
    repeat (destruct (decide _) as [Heq|_]; first (by subst)). done.
Qed.

Lemma stored_user_updates (now : datetime) (p : UpdateUserRequest) :
  stored (user_updates now p) = user_updates (to_millis now) p.
Proof.
  unfold stored, user_updates, UpdateUserRequest_dump_exclude_none.
  rewrite fmap_insert. cbn [to_bson]. f_equal.
  destruct p as [[n|] [e|] [m|] [l|]]; cbn [set_some uu_name uu_email uu_mobile uu_roll];
    by rewrite ?fmap_insert, fmap_empty.
Qed.

Lemma user_updates_no_id (now : datetime) (p : UpdateUserRequest) :
  user_updates now p !! "_id" = None.
Proof.
  unfold user_updates. rewrite lookup_insert_ne by done.
  apply UpdateUserRequest_dump_no_id.
Qed.

(** The run of [update_user] on a user that exists. *)
Lemma update_user_existing (now : datetime) (id : string)
    (o : ObjectId) (p : UpdateUserRequest) (s : Store) (tr : list op)
    (l1 l2 : list dict) (u : dict) :
  ObjectId_of_str id = Some o →
  UpdateUserRequest_dump_exclude_none p ≠ ∅ →
  c_campususer s = l1 ++ u :: l2 →
  u !! "_id" = Some (VOid o) →
  (∀ d : dict, d ∈ l1 → d !! "_id" ≠ Some (VOid o)) →
  update_user now id p (configured s tr) =
    (Return (serialize_id (Some (user_updates (to_millis now) p ∪ u))),
     configured
       (set_coll campususer (l1 ++ (user_updates (to_millis now) p ∪ u) :: l2) s)
                (tr ++ [OpUpdateOne campususer; OpFindOne campususer])).
Proof.
  intros Hid Hne Hs Hu Hl1.
  apply no_match_by_field in Hl1.
  assert (Hmu : matches [("_id", VOid o)] u = true) by by apply matches_1.
  unfold update_user.
  erewrite bind_Return by apply db_is_None_configured. cbv beta iota.
  destruct (decide (UpdateUserRequest_dump_exclude_none p = ∅)); first done.
  erewrite bind_Return by apply collection_configured.
  erewrite bind_Return by (by apply oid_valid).
  erewrite bind_Return by apply update_one_configured.
  cbn [get_coll]. fold (user_updates now p).
  rewrite Hs, (coll_update_one_split _ _ _ _ _ Hl1 Hmu), stored_user_updates.
  cbn [fst snd].
  cbv beta iota. change (1 =? 0) with false. cbv beta iota.
  erewrite bind_Return by apply collection_configured.
  erewrite bind_Return by (by apply oid_valid).
  erewrite bind_Return by apply find_one_configured.
  rewrite get_coll_set_coll.
  rewrite (coll_find_one_split _ l1 l2 (user_updates (to_millis now) p ∪ u) Hl1).
  - rewrite <- !app_assoc. done.
  - apply matches_1. rewrite lookup_union_r; first done.
    apply user_updates_no_id.
Qed.

(** X8: [update_user] on a user that exists is a field patch: the record
    with that id gets the supplied fields and a new [updated_at] (the clock
    reading, kept to the millisecond), each field it was not given keeps
    its value, every other record is left alone, and the answer is the
    serialized record. *)
Theorem update_user_patches_fields (now : datetime) (id : string)
    (o : ObjectId) (p : UpdateUserRequest) (s : Store) (tr : list op)
    (l1 l2 : list dict) (u : dict) :
  ObjectId_of_str id = Some o →
  UpdateUserRequest_dump_exclude_none p ≠ ∅ →
  c_campususer s = l1 ++ u :: l2 →
  u !! "_id" = Some (VOid o) →
  (∀ d : dict, d ∈ l1 → d !! "_id" ≠ Some (VOid o)) →
  ∃ u' : dict,
    update_user now id p (configured s tr) =
      (Return (serialize_id (Some u')),
       configured (set_coll campususer (l1 ++ u' :: l2) s)
                  (tr ++ [OpUpdateOne campususer; OpFindOne campususer]))
    ∧ u' !! "updated_at" = Some (VDatetime (to_millis now))
    ∧ u' !! "name" = patched (uu_name p) (u !! "name")
    ∧ u' !! "email" = patched (uu_email p) (u !! "email")
    ∧ u' !! "mobile" = patched (uu_mobile p) (u !! "mobile")
    ∧ u' !! "roll" = patched (uu_roll p) (u !! "roll")
    ∧ ∀ k : string, k ∉ user_fields → u' !! k = u !! k.
Proof.
  intros Hid Hne Hs Hu Hl1. exists (user_updates (to_millis now) p ∪ u).
  split; last apply user_updates_lookup.
  by apply (update_user_existing now id o p s tr l1 l2 u).
Qed.

(** X21: [update_user] does not check a new email against the other
    records: when it sets the email of one user to an email another user
    record already has, two records carry that email afterwards. *)
Theorem update_user_duplicates_email (now : datetime) (id : string)
    (o : ObjectId) (p : UpdateUserRequest) (email : string) (s : Store)
    (tr : list op) (l1 l2 : list dict) (u other : dict) :
  ObjectId_of_str id = Some o →
  uu_email p = Some email →
  c_campususer s = l1 ++ u :: l2 →
  u !! "_id" = Some (VOid o) →
  (∀ d : dict, d ∈ l1 → d !! "_id" ≠ Some (VOid o)) →
  other ∈ l1 ++ l2 →
  other !! "email" = Some (VStr email) →
  ∃ (r : option dict) (s' : Store) (tr' : list op),
    update_user now id p (configured s tr) = (Return r, configured s' tr')
    ∧ (2 ≤ length (with_email email (c_campususer s')))%nat.
Proof.
  intros Hid Hp Hs Hu Hl1 Hother Hoe.
  assert (Hne : UpdateUserRequest_dump_exclude_none p ≠ ∅).
  { destruct p as [n e m l]. cbn in Hp. subst e.
    unfold UpdateUserRequest_dump_exclude_none.
    cbn [uu_name uu_email uu_mobile uu_roll].
    intros Hempty.
    assert (Hl : (set_some "name" n
                    (set_some "email" (Some email)
                       (set_some "mobile" m (set_some "roll" l ∅))))
                 !! "email" = None) by by rewrite Hempty.
    rewrite !set_some_lookup in Hl. cbn in Hl. discriminate Hl. }
  eexists _, _, _. split.
  { by apply (update_user_existing now id o p s tr l1 l2 u). }
  rewrite get_coll_set_coll_users. unfold with_email.
  destruct (user_updates_lookup (to_millis now) p u) as (_ & _ & He & _).
  rewrite Hp in He. cbn [patched] in He.
  rewrite filter_app, filter_cons, decide_True by done.
  rewrite length_app. cbn [length].
  apply elem_of_app in Hother as [Hin|Hin].
  - assert (Hin' : other ∈ filter (λ d : dict, d !! "email" = Some (VStr email)) l1)
      by by apply list_elem_of_filter.
    destruct (filter _ l1); first by inversion Hin'. cbn [length]. lia.
  - assert (Hin' : other ∈ filter (λ d : dict, d !! "email" = Some (VStr email)) l2)
      by by apply list_elem_of_filter.
    destruct (filter _ l2); first by inversion Hin'. cbn [length]. lia.
Qed.

(** X9: [update_user] with at least one field and a well-formed id that no
    user record carries fails with a 404 "User not found" and leaves the
    store as it was. *)
Theorem update_user_not_found (now : datetime) (id : string) (o : ObjectId)
    (p : UpdateUserRequest) (s : Store) (tr : list op) :
  ObjectId_of_str id = Some o →
  UpdateUserRequest_dump_exclude_none p ≠ ∅ →
  (∀ d : dict, d ∈ c_campususer s → d !! "_id" ≠ Some (VOid o)) →
  update_user now id p (configured s tr) =
    (Raise (HTTPException 404 "User not found"),
     configured s (tr ++ [OpUpdateOne campususer])).
Proof.
  intros Hid Hne Hnone. apply no_match_by_field in Hnone.
  unfold update_user.
  erewrite bind_Return by apply db_is_None_configured. cbv beta iota.
  destruct (decide (UpdateUserRequest_dump_exclude_none p = ∅)); first done.
  erewrite bind_Return by apply collection_configured.
  erewrite bind_Return by (by apply oid_valid).
  erewrite bind_Return by apply update_one_configured.
  cbn [get_coll]. rewrite coll_update_one_no_match by done.
  cbn [fst snd]. change (c_campususer s) with (get_coll campususer s).
  by rewrite set_coll_get_coll.
Qed.

Lemma EventCreateRequest_dump_fields (p : EventCreateRequest) (k : string) :
  k ∉ event_fields → EventCreateRequest_dump p !! k = None.
Proof.
  unfold event_fields, EventCreateRequest_dump. intros Hk.
  rewrite !not_elem_of_cons in Hk. destruct Hk as (?&?&?&?&?&_).
  rewrite !lookup_insert_ne by done. by apply lookup_singleton_ne.
Qed.

Lemma stored_EventCreateRequest_dump (p : EventCreateRequest) :
  stored (EventCreateRequest_dump p)
  = EventCreateRequest_dump
      (mk_EventCreateRequest (ev_title p) (ev_description p)
         (to_millis (ev_date p)) (ev_location p) (ev_created_by_role p)).
Proof.
  unfold stored, EventCreateRequest_dump.
  rewrite !fmap_insert, map_fmap_singleton. cbn [to_bson].
  cbn [ev_title ev_description ev_date ev_location ev_created_by_role].
  by rewrite !to_bson_opt_str.
Qed.

(** X10: [update_event] on an event that exists replaces its five event
    fields by the payload's (a missing [description] or [location] becomes
    null, the [date] is kept to the millisecond), keeps every other field of
    the record, leaves all other events alone and answers with the
    serialized record. *)
Theorem update_event_replaces_fields (id : string) (o : ObjectId)
    (p : EventCreateRequest) (s : Store) (tr : list op)
    (l1 l2 : list dict) (u : dict) :
  ObjectId_of_str id = Some o →
  c_event s = l1 ++ u :: l2 →
  u !! "_id" = Some (VOid o) →
  (∀ d : dict, d ∈ l1 → d !! "_id" ≠ Some (VOid o)) →
  ∃ u' : dict,
    update_event id p (configured s tr) =
      (Return (serialize_id (Some u')),
       configured (set_coll event (l1 ++ u' :: l2) s)
                  (tr ++ [OpUpdateOne event; OpFindOne event]))
    ∧ u' !! "title" = Some (VStr (ev_title p))
    ∧ u' !! "description" = Some (opt_str (ev_description p))
    ∧ u' !! "date" = Some (VDatetime (to_millis (ev_date p)))
    ∧ u' !! "location" = Some (opt_str (ev_location p))
    ∧ u' !! "created_by_role" = Some (VStr (role_str (ev_created_by_role p)))
    ∧ ∀ k : string, k ∉ event_fields → u' !! k = u !! k.
Proof.
  intros Hid Hs Hu Hl1. exists (stored (EventCreateRequest_dump p) ∪ u).
  split.
  - apply no_match_by_field in Hl1.
    assert (Hmu : matches [("_id", VOid o)] u = true) by by apply matches_1.
    unfold update_event.
    erewrite bind_Return by apply collection_configured.
    erewrite bind_Return by (by apply oid_valid).
    erewrite bind_Return by apply update_one_configured.
    cbn [get_coll].
    rewrite Hs, (coll_update_one_split _ _ _ _ _ Hl1 Hmu). cbn [fst snd].
    change (1 =? 0) with false. cbv beta iota.
    erewrite bind_Return by apply collection_configured.
    erewrite bind_Return by (by apply oid_valid).
    erewrite bind_Return by apply find_one_configured.
    rewrite get_coll_set_coll.
    rewrite (coll_find_one_split _ l1 l2
               (stored (EventCreateRequest_dump p) ∪ u) Hl1).
    + rewrite <- !app_assoc. done.
    + apply matches_1. rewrite lookup_union_r; first done.
      apply stored_None, EventCreateRequest_dump_fields. unfold event_fields.
      rewrite !not_elem_of_cons. repeat split; try done. apply not_elem_of_nil.
  - rewrite stored_EventCreateRequest_dump.
    repeat split; try by apply lookup_union_Some_l.
    intros k Hk. apply lookup_union_r.
    by apply EventCreateRequest_dump_fields.
Qed.

(** ** Creating and deleting *)

Lemma coll_delete_one_split (q : query) (l1 l2 : list dict) (u : dict) :
  Forall (λ d, matches q d = false) l1 → matches q u = true →
  coll_delete_one q (l1 ++ u :: l2) = (1, l1 ++ l2).
Proof.
  intros Hl1 Hu.
  induction Hl1 as [|d l1 Hd _ IH]; cbn [app coll_delete_one].
  - by rewrite Hu.
  - by rewrite Hd, IH.
Qed.

Lemma Event_new_dump (p : EventCreateRequest) (w : World) :
  Event_new (EventCreateRequest_dump p) w = (Return (event_of p), w).
Proof. by destruct p as [t [d|] w0 [l|] []]. Qed.

Lemma fresh_oid_no_match (c : list dict) :
  Forall (λ d, matches [("_id", VOid (fresh_oid c))] d = false) c.
Proof. apply no_match_by_field. intros d. apply fresh_oid_fresh. Qed.

Lemma ObjectId_of_oid_str_small (o : ObjectId) :
  (o < 2 ^ 96)%N → ObjectId_of_str (oid_str o) = Some o.
Proof.
  intros Ho. rewrite ObjectId_of_oid_str.
  rewrite N.mod_small; first done. by change (16 ^ 24)%N with (2 ^ 96)%N.
Qed.

Lemma ObjectId_new_oid_str (o : ObjectId) (w : World) :
  (o < 2 ^ 96)%N → ObjectId_new (oid_str o) w = (Return (VOid o), w).
Proof.
  intros Ho. unfold ObjectId_new. rewrite ObjectId_parse_oid_str.
  rewrite N.mod_small; first done. by change (16 ^ 24)%N with (2 ^ 96)%N.
Qed.

(** X11: [delete_event] on an event that exists, under an id no other
    event shares, removes exactly that record and answers
    [{"deleted": True}]; from then on deleting or updating under the same id
    fails with a 404 and changes nothing. *)
Theorem delete_event_removes_record (id : string) (o : ObjectId) (s : Store)
    (tr : list op) (l1 l2 : list dict) (u : dict) :
  ObjectId_of_str id = Some o →
  c_event s = l1 ++ u :: l2 →
  u !! "_id" = Some (VOid o) →
  (∀ d : dict, d ∈ l1 ++ l2 → d !! "_id" ≠ Some (VOid o)) →
  let s' := set_coll event (l1 ++ l2) s in
  delete_event id (configured s tr) =
    (Return deleted_ack, configured s' (tr ++ [OpDeleteOne event]))
  ∧ (∀ tr', delete_event id (configured s' tr') =
              (Raise (HTTPException 404 "Event not found"),
               configured s' (tr' ++ [OpDeleteOne event])))
  ∧ (∀ tr' p, update_event id p (configured s' tr') =
                (Raise (HTTPException 404 "Event not found"),
                 configured s' (tr' ++ [OpUpdateOne event]))).
Proof.
  intros Hid Hs Hu Hothers s'.
  assert (Hl1 : Forall (λ d, matches [("_id", VOid o)] d = false) l1).
  { apply no_match_by_field. intros d Hd. apply Hothers.
    apply elem_of_app. by left. }
  apply no_match_by_field in Hothers.
  assert (Hmu : matches [("_id", VOid o)] u = true) by by apply matches_1.
  repeat split.
  - unfold delete_event.
    erewrite bind_Return by apply collection_configured.
    erewrite bind_Return by (by apply oid_valid).
    erewrite bind_Return by apply delete_one_configured.
    cbn [get_coll]. by rewrite Hs, (coll_delete_one_split _ _ _ _ Hl1 Hmu).
  - intros tr'. unfold delete_event.
    erewrite bind_Return by apply collection_configured.
    erewrite bind_Return by (by apply oid_valid).
    erewrite bind_Return by apply delete_one_configured.
    unfold s'. rewrite get_coll_set_coll.
    rewrite coll_delete_one_no_match by done.
    cbn [fst snd]. by rewrite set_coll_set_coll.
  - intros tr' p. unfold update_event.
    erewrite bind_Return by apply collection_configured.
    erewrite bind_Return by (by apply oid_valid).
    erewrite bind_Return by apply update_one_configured.
    unfold s'. rewrite get_coll_set_coll.
    rewrite coll_update_one_no_match by done.
    cbn [fst snd]. by rewrite set_coll_set_coll.
Qed.

(** X12: [create_event] appends exactly one event record, the payload's
    five fields in their stored form (the [date] kept to the millisecond)
    under a generated [_id], and answers with that record serialized;
    deleting the event under the id so returned brings the store back to
    what it was before the creation. *)
Theorem create_event_then_delete (now : datetime) (p : EventCreateRequest)
    (s : Store) (tr : list op) :
  (fresh_oid (c_event s) < 2 ^ 96)%N →
  let e := <["_id" := VOid (fresh_oid (c_event s))]>
             (stored (EventCreateRequest_dump p)) in
  let s1 := set_coll event (c_event s ++ [e]) s in
  let tr1 := tr ++ [OpInsertOne event; OpFindOne event] in
  create_event now p (configured s tr) =
    (Return (serialize_id (Some e)), configured s1 tr1)
  ∧ delete_event (id_str e) (configured s1 tr1) =
      (Return deleted_ack, configured s (tr1 ++ [OpDeleteOne event])).
Proof.
  intros Hfresh e s1 tr1.
  assert (Hme : matches [("_id", VOid (fresh_oid (c_event s)))] e = true).
  { apply matches_1. apply lookup_insert_eq. }
  assert (Hid : id_str e = oid_str (fresh_oid (c_event s))).
  { unfold id_str, e. by rewrite oid_of_insert. }
  split.
  - unfold create_event.
    erewrite bind_Return by apply Event_new_dump.
    erewrite bind_Return by apply create_document_configured.
    erewrite bind_Return by apply collection_configured.
    erewrite bind_Return by (by apply ObjectId_new_oid_str).
    erewrite bind_Return by apply find_one_configured.
    rewrite get_coll_set_coll. cbn [get_coll].
    change (created now event (Event_dump (event_of p)) s) with e.
    rewrite (coll_find_one_split _ (c_event s) [] e (fresh_oid_no_match _) Hme).
    unfold tr1. rewrite <- !app_assoc. done.
  - unfold delete_event. rewrite Hid.
    erewrite bind_Return by apply collection_configured.
    erewrite bind_Return by (apply oid_valid, ObjectId_of_oid_str_small; done).
    erewrite bind_Return by apply delete_one_configured.
    unfold s1. rewrite get_coll_set_coll.
    rewrite (coll_delete_one_split _ (c_event s) [] e (fresh_oid_no_match _) Hme).
    cbn [fst snd]. rewrite app_nil_r, set_coll_set_coll.
    change (c_event s) with (get_coll event s).
    by rewrite set_coll_get_coll.
Qed.

Lemma stored_login_data (now : datetime) (p : DemoLoginRequest) :
  stored (login_data now p) = login_data (to_millis now) p.
Proof.
  unfold stored, login_data, DemoLoginRequest_dump.
  rewrite !fmap_insert, map_fmap_singleton. cbn [to_bson].
  by rewrite !to_bson_opt_str.
Qed.

(** X13: [demo_login] with an email no user record has appends exactly one
    record, the payload's five fields plus [updated_at] (the clock reading,
    kept to the millisecond) under a generated [_id], leaves the existing
    records alone and answers with the new record serialized. *)
Theorem demo_login_inserts_new (now : datetime) (p : DemoLoginRequest)
    (s : Store) (tr : list op) :
  (∀ d : dict, d ∈ c_campususer s → d !! "email" ≠ Some (VStr (dl_email p))) →
  (fresh_oid (c_campususer s) < 2 ^ 96)%N →
  let u := <["_id" := VOid (fresh_oid (c_campususer s))]>
             (login_data (to_millis now) p) in
  demo_login now p (configured s tr) =
    (Return (serialize_id (Some u)),
     configured (set_coll campususer (c_campususer s ++ [u]) s)
                (tr ++ [OpFindOne campususer; OpInsertOne campususer;
                        OpFindOne campususer])).
Proof.
  intros Hnone Hfresh u. apply no_match_by_field in Hnone.
  assert (Hmu : matches [("_id", VOid (fresh_oid (c_campususer s)))] u = true).
  { apply matches_1. apply lookup_insert_eq. }
  unfold demo_login.
  erewrite bind_Return by apply db_is_None_configured. cbv beta iota.
  erewrite bind_Return by apply find_one_configured.
  cbn [get_coll]. rewrite (coll_find_one_none _ _ Hnone).
  fold (login_data now p).
  erewrite bind_Return by apply CampusUser_new_login_data.
  erewrite bind_Return by apply create_document_configured.
  erewrite bind_Return by apply collection_configured.
  erewrite bind_Return by (by apply ObjectId_new_oid_str).
  erewrite bind_Return by apply find_one_configured.
  rewrite get_coll_set_coll. cbn [get_coll].
  change (created now campususer (CampusUser_dump (user_of p)) s)
    with (<["_id" := VOid (fresh_oid (c_campususer s))]>
            (stored (login_data now p))).
  rewrite stored_login_data. fold u.
  rewrite (coll_find_one_split _ (c_campususer s) [] u (fresh_oid_no_match _) Hmu).
  rewrite <- !app_assoc. done.
Qed.

(** ** Overrides and marks, then the summary *)

(** The run of [attendance_summary] on a configured store. *)
Lemma attendance_summary_run (roll : string) (s : Store) (tr : list op) :
  let P := attendance_count roll present s in
  let A := attendance_count roll absent s in
  attendance_summary roll (configured s tr) =
    (Return
       {| s_roll := roll;
          presentDays := P;
          absentDays := A;
          percentage :=
            match manual_override roll s with
            | Some v => round2 (to_float v)
            | None =>
                if P + A =? 0 then zero
                else round2 (fmul (true_quotient P (P + A)) hundred)
            end |},
     configured s (tr ++ [OpCount attendancerecord; OpCount attendancerecord;
                          OpFindOne attendanceoverride])).
Proof.
  intros P A. unfold attendance_summary.
  erewrite bind_Return by apply count_documents_configured.
  erewrite bind_Return by apply count_documents_configured.
  cbn [get_coll].
  pose proof (coll_count_attendance roll present s) as HcP.
  pose proof (coll_count_attendance roll absent s) as HcA.
  cbn [status_str] in HcP, HcA. rewrite HcP, HcA. clear HcP HcA. fold P A.
  assert (HP : 0 ≤ P) by (unfold P, attendance_count; lia).
  assert (HA : 0 ≤ A) by (unfold A, attendance_count; lia).
  rewrite <- !app_assoc. cbn [app].
  set (pct := if P + A =? 0 then zero
              else fmul (true_quotient P (P + A)) hundred).
  assert (Hpct : (if P + A >? 0
                  then match int_true_div P (P + A) with
                       | Some q => ret (fmul q hundred)
                       | None => raise ZeroDivisionError
                       end
                  else ret zero)
                 (configured s (tr ++ [OpCount attendancerecord;
                                       OpCount attendancerecord]))
                 = (Return pct, configured s (tr ++ [OpCount attendancerecord;
                                                     OpCount attendancerecord]))).
  { unfold pct, int_true_div.
    destruct (Z.eqb_spec (P + A) 0) as [->|Hne]; first done.
    replace (P + A >? 0) with true by (symmetry; apply Z.gtb_lt; lia).
    done. }
  erewrite bind_Return by apply Hpct.
  erewrite bind_Return by apply find_one_configured.
  cbn [get_coll]. rewrite coll_find_one_override.
  rewrite <- !app_assoc. cbn [app].
  unfold manual_override.
  destruct (override_for roll s) as [ov|] eqn:Hov; cbn [mbind option_bind].
  - rewrite (override_for_truthy _ _ _ Hov). cbn [andb].
    unfold get_or_None, getitem.
    destruct (ov !! "manual_percentage") as [v|] eqn:Hv; cbn.
    + destruct (is_number v) eqn:Hn; cbn.
      * done.
      * unfold pct. by destruct (P + A =? 0).
    + unfold pct. by destruct (P + A =? 0).
  - cbn. unfold pct. by destruct (P + A =? 0).
Qed.

Lemma head_filter_None {A} (P : A → Prop) `{!∀ x, Decision (P x)}
    (l : list A) :
  head (filter P l) = None → Forall (λ x, ¬ P x) l.
Proof.
  intros Hh. apply (filter_nil_Forall P). by destruct (filter P l).
Qed.

Lemma head_filter_Some {A} (P : A → Prop) `{!∀ x, Decision (P x)}
    (l : list A) (u : A) :
  head (filter P l) = Some u →
  ∃ l1 l2, l = l1 ++ u :: l2 ∧ Forall (λ x, ¬ P x) l1 ∧ P u.
Proof.
  induction l as [|x l IH]; first done.
  rewrite filter_cons. destruct (decide (P x)) as [HP|HP].
  - intros [= ->]. by exists [], l.
  - intros Hl. destruct (IH Hl) as (l1 & l2 & -> & H1 & Hu).
    exists (x :: l1), l2. repeat split; try done. by constructor.
Qed.

Lemma head_filter_split {A} (P : A → Prop) `{!∀ x, Decision (P x)}
    (l1 l2 : list A) (u : A) :
  Forall (λ x, ¬ P x) l1 → P u → head (filter P (l1 ++ u :: l2)) = Some u.
Proof.
  intros H1 Hu. rewrite filter_app, filter_cons, decide_True by done.
  by rewrite (Forall_filter_nil P l1).
Qed.

Lemma ManualPercentageRequest_dump_lookup (p : ManualPercentageRequest)
    (u : dict) :
  (ManualPercentageRequest_dump p ∪ u) !! "roll" = Some (VStr (mp_roll p))
  ∧ (ManualPercentageRequest_dump p ∪ u) !! "manual_percentage"
    = Some (VFloat (mp_manual_percentage p))
  ∧ (ManualPercentageRequest_dump p ∪ u) !! "_id" = u !! "_id".
Proof.
  repeat split; try by apply lookup_union_Some_l.
  by apply lookup_union_r.
Qed.

(** The update path of [set_manual_percentage]. *)
Lemma set_manual_percentage_existing (now : datetime)
    (p : ManualPercentageRequest) (s : Store) (tr : list op)
    (l1 l2 : list dict) (u : dict) (i : value) :
  c_attendanceoverride s = l1 ++ u :: l2 →
  (∀ d : dict, d ∈ l1 → d !! "roll" ≠ Some (VStr (mp_roll p))) →
  u !! "roll" = Some (VStr (mp_roll p)) →
  u !! "_id" = Some i →
  (∀ d : dict, d ∈ l1 → d !! "_id" ≠ Some i) →
  set_manual_percentage now p (configured s tr) =
    (Return (serialize_id (Some (ManualPercentageRequest_dump p ∪ u))),
     configured
       (set_coll attendanceoverride
          (l1 ++ (ManualPercentageRequest_dump p ∪ u) :: l2) s)
       (tr ++ [OpFindOne attendanceoverride; OpUpdateOne attendanceoverride;
               OpFindOne attendanceoverride])).
Proof.
  intros Hs Hl1 Hu Hid Hl1id.
  apply no_match_by_field in Hl1, Hl1id.
  assert (Hmu : matches [("roll", VStr (mp_roll p))] u = true)
    by by apply matches_1.
  assert (Hmi : matches [("_id", i)] u = true) by by apply matches_1.
  assert (Hne : u ≠ ∅) by (intros ->; by rewrite lookup_empty in Hu).
  unfold set_manual_percentage.
  erewrite bind_Return by apply find_one_configured.
  cbn [get_coll]. rewrite Hs, (coll_find_one_split _ _ _ _ Hl1 Hmu).
  unfold truthy. destruct (decide (u = ∅)); first done.
  unfold getitem. rewrite Hid.
  erewrite bind_Return by done.
  erewrite bind_Return by apply update_one_configured.
  cbn [get_coll]. rewrite Hs, (coll_update_one_split _ _ _ _ _ Hl1id Hmi).
  erewrite bind_Return by done.
  erewrite bind_Return by apply find_one_configured.
  rewrite get_coll_set_coll. cbn [fst snd].
  rewrite (coll_find_one_split _ l1 l2 (ManualPercentageRequest_dump p ∪ u) Hl1id).
  - rewrite <- !app_assoc. done.
  - apply matches_1.
    destruct (ManualPercentageRequest_dump_lookup p u) as (_ & _ & ->). done.
Qed.

(** The insert path of [set_manual_percentage], for a value in range. *)
Lemma set_manual_percentage_new (now : datetime) (p : ManualPercentageRequest)
    (s : Store) (tr : list op) :
  (∀ d : dict, d ∈ c_attendanceoverride s
               → d !! "roll" ≠ Some (VStr (mp_roll p))) →
  in_range (mp_manual_percentage p) = true →
  ∃ r : option dict,
    set_manual_percentage now p (configured s tr) =
      (Return r,
       configured
         (set_coll attendanceoverride
            (c_attendanceoverride s
               ++ [created now attendanceoverride
                     (ManualPercentageRequest_dump p) s]) s)
         (tr ++ [OpFindOne attendanceoverride; OpInsertOne attendanceoverride;
                 OpFindOne attendanceoverride])).
Proof.
  intros Hnone Hin. apply no_match_by_field in Hnone.
  unfold set_manual_percentage.
  erewrite bind_Return by apply find_one_configured.
  cbn [get_coll]. rewrite (coll_find_one_none _ _ Hnone).
  assert (Hnew : ∀ w, AttendanceOverride_new (ManualPercentageRequest_dump p) w
                      = (Return (mk_AttendanceOverride (mp_roll p)
                                   (mp_manual_percentage p)), w)).
  { intros w. destruct p as [r f]. unfold in_range in Hin. cbn in Hin.
    unfold AttendanceOverride_new, ManualPercentageRequest_dump.
    cbn [mp_roll mp_manual_percentage].
    replace (field_str _ "roll") with (Some r) by done.
    replace (field_float _ "manual_percentage") with (Some f) by done.
    cbn [mbind option_bind]. by rewrite Hin. }
  erewrite bind_Return by apply Hnew.
  erewrite bind_Return by apply create_document_configured.
  erewrite bind_Return by apply collection_configured.
  unfold ObjectId_new. rewrite ObjectId_parse_oid_str.
  erewrite bind_Return by done.
  erewrite bind_Return by apply find_one_configured.
  eexists. cbn [get_coll]. rewrite <- !app_assoc. done.
Qed.

(** The insert path of [set_manual_percentage], for a value out of range. *)
Lemma set_manual_percentage_out_of_range (now : datetime)
    (p : ManualPercentageRequest) (s : Store) (tr : list op) :
  override_for (mp_roll p) s = None →
  in_range (mp_manual_percentage p) = false →
  set_manual_percentage now p (configured s tr) =
    (Raise (ValidationError "AttendanceOverride"),
     configured s (tr ++ [OpFindOne attendanceoverride])).
Proof.
  intros Hnone Hout. unfold set_manual_percentage.
  erewrite bind_Return by apply find_one_configured.
  cbn [get_coll]. rewrite coll_find_one_override, Hnone.
  destruct p as [r f]. unfold in_range in Hout. cbn in Hout.
  assert (Hnew : ∀ w, AttendanceOverride_new
                        (ManualPercentageRequest_dump (mk_ManualPercentageRequest r f)) w
                      = (Raise (ValidationError "AttendanceOverride"), w)).
  { intros w. unfold AttendanceOverride_new, ManualPercentageRequest_dump.
    cbn [mp_roll mp_manual_percentage].
    replace (field_str _ "roll") with (Some r) by done.
    replace (field_float _ "manual_percentage") with (Some f) by done.
    cbn [mbind option_bind]. by rewrite Hout. }
  by erewrite bind_Raise by apply Hnew.
Qed.

(** X14: the insert path of [set_manual_percentage] validates: for a roll
    without an override, any value outside [0, 100] (NaN included) ends in
    a [ValidationError] and nothing is written. *)
Theorem set_manual_percentage_rejects_new (now : datetime)
    (p : ManualPercentageRequest) (s : Store) (tr : list op) :
  override_for (mp_roll p) s = None →
  in_range (mp_manual_percentage p) = false →
  set_manual_percentage now p (configured s tr) =
    (Raise (ValidationError "AttendanceOverride"),
     configured s (tr ++ [OpFindOne attendanceoverride])).
Proof. apply set_manual_percentage_out_of_range. Qed.

Lemma manual_override_split (roll : string) (s : Store) (l1 l2 : list dict)
    (u : dict) (v : value) :
  c_attendanceoverride s = l1 ++ u :: l2 →
  (∀ d : dict, d ∈ l1 → d !! "roll" ≠ Some (VStr roll)) →
  u !! "roll" = Some (VStr roll) →
  u !! "manual_percentage" = Some v →
  is_number v = true →
  manual_override roll s = Some v.
Proof.
  intros Hs Hl1 Hu Hv Hn. unfold manual_override, override_for.
  rewrite Hs, (head_filter_split _ l1 l2 u); [ | by apply Forall_forall | done].
  cbn. rewrite Hv. cbn. by rewrite Hn.
Qed.

(** X15: after [set_manual_percentage] has stored [f] for a roll (the roll
    had an override already, or [f] is within [0, 100]), on a store keeping
    the [_id] guarantee, [attendance_summary] of that roll reports
    [round(f, 2)], with the present and absent counts unchanged. *)
Theorem set_manual_percentage_then_summary (now : datetime) (roll : string)
    (f : float) (s : Store) (tr : list op) :
  ids_unique (c_attendanceoverride s) →
  is_Some (override_for roll s) ∨ in_range f = true →
  ∃ (r : option dict) (s' : Store) (tr' : list op),
    set_manual_percentage now (mk_ManualPercentageRequest roll f)
                          (configured s tr) = (Return r, configured s' tr')
    ∧ ∀ tr'' : list op,
        (attendance_summary roll (configured s' tr'')).1 =
          Return (mk_Summary roll (attendance_count roll present s)
                             (attendance_count roll absent s) (round2 f)).
Proof.
  intros Huniq Hcase.
  set (p := mk_ManualPercentageRequest roll f).
  destruct (override_for roll s) as [u|] eqn:Hov.
  - (* update path *)
    unfold override_for in Hov.
    apply (head_filter_Some _) in Hov as (l1 & l2 & Hs & Hl1 & Hu).
    rewrite Hs in Huniq. apply ids_unique_split in Huniq as (i & Hi & Hl1i).
    rewrite Forall_forall in Hl1.
    eexists _, _, _. split.
    { by apply (set_manual_percentage_existing now p s tr l1 l2 u i). }
    intros tr''. rewrite attendance_summary_run. cbn [fst]. f_equal.
    destruct (ManualPercentageRequest_dump_lookup p u) as (Hr & Hm & _).
    rewrite (manual_override_split roll _ l1 l2
               (ManualPercentageRequest_dump p ∪ u) (VFloat f)); done.
  - (* insert path *)
    destruct Hcase as [[? [=]]|Hin].
    unfold override_for in Hov. apply (head_filter_None _) in Hov.
    rewrite Forall_forall in Hov.
    destruct (set_manual_percentage_new now p s tr Hov Hin) as [r Hrun].
    eexists _, _, _. split; first exact Hrun.
    intros tr''. rewrite attendance_summary_run. cbn [fst]. f_equal.
    rewrite (manual_override_split roll _ (c_attendanceoverride s) []
               (created now attendanceoverride (ManualPercentageRequest_dump p) s)
               (VFloat f)); done.
Qed.

Lemma status_str_inj (a b : status) : status_str a = status_str b → a = b.
Proof. by destruct a, b. Qed.

Lemma marked_records_count (roll : string) (st : status) (d : date)
    (entries : list AttendanceMark) (docs : list dict) :
  Forall2 (marked_record d) entries docs →
  length (filter (λ doc : dict, doc !! "roll" = Some (VStr roll)
                                ∧ doc !! "status" = Some (VStr (status_str st)))
                 docs)
  = length (entries_for roll st entries).
Proof.
  unfold entries_for.
  induction 1 as [|e doc entries docs [o ->] _ IH]; first done.
  rewrite !filter_cons.
  assert (Hroll : (<["_id" := VOid o]>
                     (AttendanceRecord_dump
                        (mk_AttendanceRecord (am_roll e) d (am_status e))))
                  !! "roll" = Some (VStr (am_roll e))) by done.
  assert (Hst : (<["_id" := VOid o]>
                   (AttendanceRecord_dump
                      (mk_AttendanceRecord (am_roll e) d (am_status e))))
                !! "status" = Some (VStr (status_str (am_status e)))) by done.
  rewrite Hroll, Hst.
  destruct (decide (am_roll e = roll ∧ am_status e = st)) as [[<- <-]|Hno].
  - rewrite decide_True by done. cbn. by rewrite IH.
  - rewrite decide_False; first done.
    intros [[= Hr] [= Hs%status_str_inj]]. by apply Hno.
Qed.

(** X16: marks add up in the summary: after [mark_attendance] with a
    non-empty list of entries, [attendance_summary] of any roll reports the
    earlier present count plus the number of entries marking that roll
    present, and likewise for absent. *)
Theorem mark_attendance_then_summary (now : datetime) (d : date)
    (e : AttendanceMark) (es : list AttendanceMark) (roll : string)
    (s : Store) (tr : list op) :
  ∃ (res : MarkResult) (s' : Store) (tr' : list op),
    mark_attendance now (mk_AttendanceMarkRequest d (e :: es))
                    (configured s tr) = (Return res, configured s' tr')
    ∧ c_attendanceoverride s' = c_attendanceoverride s
    ∧ ∀ tr'' : list op, ∃ pct : float,
        (attendance_summary roll (configured s' tr'')).1 =
          Return
            (mk_Summary roll
               (attendance_count roll present s
                + Z.of_nat (length (entries_for roll present (e :: es))))
               (attendance_count roll absent s
                + Z.of_nat (length (entries_for roll absent (e :: es))))
               pct).
Proof.
  destruct (mark_entries_spec now d (e :: es) s tr []) as (docs & Hrun & Hall).
  eexists _, _, _. split.
  { unfold mark_attendance. cbn [amr_entries].
    erewrite bind_Return by apply Hrun. done. }
  split; first done.
  intros tr''. eexists. rewrite attendance_summary_run. cbn [fst].
  assert (Hcount : ∀ st,
            attendance_count roll st
              (set_coll attendancerecord (c_attendancerecord s ++ docs) s)
            = attendance_count roll st s
              + Z.of_nat (length (entries_for roll st (e :: es)))).
  { intros st. unfold attendance_count, attendance_records.
    cbn [set_coll c_attendancerecord].
    rewrite filter_app, length_app, Nat2Z.inj_add.
    by rewrite (marked_records_count roll st d (e :: es) docs Hall). }
  by rewrite !Hcount.
Qed.

(** ** Listings *)

Lemma insert_by_perm (le : dict → dict → bool) (x : dict) (l : list dict) :
  insert_by le x l ≡ₚ x :: l.
Proof.
  induction l as [|y l IH]; first done.
  cbn [insert_by]. destruct (le x y); first done.
  rewrite IH. apply Permutation_swap.
Qed.

Lemma sort_docs_perm (key : string) (ascending : bool) (l : list dict) :
  sort_docs key ascending l ≡ₚ l.
Proof.
  unfold sort_docs. induction l as [|x l IH]; first done.
  cbn [foldr]. rewrite insert_by_perm. by rewrite IH.
Qed.

Lemma find_sorted_configured (c : coll) (key : string) (ascending : bool)
    (limit : nat) (s : Store) (tr : list op) :
  find_sorted c key ascending limit (configured s tr) =
    (Return (take limit (sort_docs key ascending (get_coll c s))),
     configured s (tr ++ [OpFind c])).
Proof.
  unfold find_sorted, store_op, configured. cbn.
  by rewrite set_coll_get_coll.
Qed.

Lemma take_sort_docs (key : string) (ascending : bool) (limit : nat)
    (l : list dict) :
  length (take limit (sort_docs key ascending l)) = (limit `min` length l)%nat
  ∧ take limit (sort_docs key ascending l) ⊆+ l.
Proof.
  split.
  - by rewrite length_take, (Permutation_length (sort_docs_perm key ascending l)).
  - rewrite <- (sort_docs_perm key ascending l) at 2.
    apply sublist_submseteq, sublist_take.
Qed.

(** X17: [list_events] and [recent_attendance] answer with the
    serializations of [min(limit, n)] of the [n] stored documents, each
    stored document used at most once, and leave the store as it was. *)
Theorem listings_bounded (limit : nat) (s : Store) (tr : list op) :
  (∃ docs : list dict,
     list_events limit (configured s tr) =
       (Return ((λ d, serialize_id (Some d)) <$> docs),
        configured s (tr ++ [OpFind event]))
     ∧ length docs = (limit `min` length (c_event s))%nat
     ∧ docs ⊆+ c_event s)
  ∧ (∃ docs : list dict,
       recent_attendance limit (configured s tr) =
         (Return ((λ d, serialize_id (Some d)) <$> docs),
          configured s (tr ++ [OpFind attendancerecord]))
       ∧ length docs = (limit `min` length (c_attendancerecord s))%nat
       ∧ docs ⊆+ c_attendancerecord s).
Proof.
  split.
  - exists (take limit (sort_docs "date" true (c_event s))).
    split; last apply take_sort_docs.
    unfold list_events.
    by erewrite bind_Return by apply find_sorted_configured.
  - exists (take limit (sort_docs "attendance_date" false (c_attendancerecord s))).
    split; last apply take_sort_docs.
    unfold recent_attendance.
    by erewrite bind_Return by apply find_sorted_configured.
Qed.

Lemma insert_by_HdRel (R : dict → dict → Prop) (le : dict → dict → bool)
    (a x : dict) (l : list dict) :
  R a x → HdRel R a l → HdRel R a (insert_by le x l).
Proof.
  intros Hax Hl. destruct l as [|y l]; cbn [insert_by].
  - by constructor.
  - destruct (le x y); constructor; first done. by inversion Hl.
Qed.

Lemma insert_by_Sorted (R : dict → dict → Prop) (le : dict → dict → bool)
    (x : dict) (l : list dict) :
  (∀ a b, le a b = true → R a b) →
  (∀ a b, le a b = false → R b a) →
  Sorted R l → Sorted R (insert_by le x l).
Proof.
  intros Hle Hgt. induction 1 as [|y l Hl IH Hy]; cbn [insert_by].
  - by repeat constructor.
  - destruct (le x y) eqn:Hxy.
    + constructor; first by constructor. constructor. by apply Hle.
    + constructor; first done. apply insert_by_HdRel; last done.
      by apply Hgt.
Qed.

Lemma Sorted_take (R : dict → dict → Prop) (n : nat) (l : list dict) :
  Sorted R l → Sorted R (take n l).
Proof.
  intros Hl. revert n.
  induction Hl as [|y l Hl IH Hy]; intros [|n]; cbn [take];
    try by constructor.
  constructor; first apply IH.
  destruct Hy as [|z l' Hyz]; destruct n; cbn [take]; by constructor.
Qed.

Lemma sort_docs_Sorted (key : string) (ascending : bool) (l : list dict) :
  compare_total → Sorted (doc_le key ascending) (sort_docs key ascending l).
Proof.
  intros Htotal. unfold sort_docs.
  induction l as [|x l IH]; first by constructor.
  cbn [foldr]. apply insert_by_Sorted; last done.
  - intros a b Hab. unfold doc_le.
    destruct ascending; by destruct (bson_compare _ _).
  - intros a b Hab. unfold doc_le.
    destruct ascending.
    + apply Htotal. by destruct (bson_compare (a !! key) (b !! key)).
    + apply Htotal. by destruct (bson_compare (b !! key) (a !! key)).
Qed.

(** X18: when the store's order on field values is total, the documents
    [list_events] serializes are in ascending order of [date] and those
    [recent_attendance] serializes are in descending order of
    [attendance_date]. *)
Theorem listings_sorted (limit : nat) (s : Store) (tr : list op) :
  compare_total →
  (∃ docs : list dict,
     (list_events limit (configured s tr)).1 =
       Return ((λ d, serialize_id (Some d)) <$> docs)
     ∧ Sorted (doc_le "date" true) docs)
  ∧ (∃ docs : list dict,
       (recent_attendance limit (configured s tr)).1 =
         Return ((λ d, serialize_id (Some d)) <$> docs)
       ∧ Sorted (doc_le "attendance_date" false) docs).
Proof.
  intros Htotal. split.
  - exists (take limit (sort_docs "date" true (c_event s))). split.
    + unfold list_events.
      by erewrite bind_Return by apply find_sorted_configured.
    + by apply Sorted_take, sort_docs_Sorted.
  - exists (take limit (sort_docs "attendance_date" false (c_attendancerecord s))).
    split.
    + unfold recent_attendance.
      by erewrite bind_Return by apply find_sorted_configured.
    + by apply Sorted_take, sort_docs_Sorted.
Qed.

(** ** Upserts keep their key unique *)

Lemma filter_length_replace {A} (P : A → Prop) `{!∀ x, Decision (P x)}
    (l1 l2 : list A) (u u' : A) :
  (P u ↔ P u') →
  length (filter P (l1 ++ u' :: l2)) = length (filter P (l1 ++ u :: l2)).
Proof.
  intros Huu. rewrite !filter_app, !filter_cons, !length_app.
  destruct (decide (P u)) as [Hu|Hu].
  - rewrite decide_True; [done | by apply Huu].
  - rewrite decide_False; first done. intros Hu'. by apply Hu, Huu.
Qed.

Lemma filter_length_snoc {A} (P : A → Prop) `{!∀ x, Decision (P x)}
    (l : list A) (x : A) :
  length (filter P (l ++ [x]))
  = (length (filter P l) + if decide (P x) then 1 else 0)%nat.
Proof.
  rewrite filter_app, length_app, filter_cons.
  by destruct (decide (P x)).
Qed.

Lemma key_unique_replace (k : string) (v : value) (l1 l2 : list dict)
    (u u' : dict) (k' : value) :
  u !! k = Some v → u' !! k = Some v →
  length (filter (λ d : dict, d !! k = Some k') (l1 ++ u' :: l2))
  = length (filter (λ d : dict, d !! k = Some k') (l1 ++ u :: l2)).
Proof.
  intros Hu Hu'. apply (filter_length_replace _). by rewrite Hu, Hu'.
Qed.

(** X19: [demo_login] keeps emails unique: on a store keeping the [_id]
    guarantee in which no two user records share an email, the login
    returns, and afterwards still no two user records share an email while
    exactly one carries the payload's. *)
Theorem demo_login_keeps_emails_unique (now : datetime) (p : DemoLoginRequest)
    (s : Store) (tr : list op) :
  ids_unique (c_campususer s) →
  emails_unique (c_campususer s) →
  ∃ (r : option dict) (s' : Store) (tr' : list op),
    demo_login now p (configured s tr) = (Return r, configured s' tr')
    ∧ emails_unique (c_campususer s')
    ∧ length (with_email (dl_email p) (c_campususer s')) = 1%nat.
Proof.
  intros Hids Huniq.
  assert (Hval : ∀ c, (∀ k' : value,
             (length (filter (λ d : dict, d !! "email" = Some k') c) ≤ 1)%nat)
             → emails_unique c).
  { intros c Hc e. apply Hc. }
  destruct (with_email (dl_email p) (c_campususer s)) as [|u [|u2 rest]] eqn:Hf;
    last (specialize (Huniq (dl_email p)); rewrite Hf in Huniq; cbn in Huniq; lia).
  - apply (filter_nil_Forall _) in Hf. rewrite Forall_forall in Hf.
    destruct (demo_login_new now p s tr Hf) as [r Hrun].
    eexists _, _, _. split; first exact Hrun.
    rewrite get_coll_set_coll_users.
    assert (Hce : created now campususer (DemoLoginRequest_dump p) s !! "email"
                  = Some (VStr (dl_email p))) by done.
    split.
    + intros e. unfold with_email.
      destruct (decide (e = dl_email p)) as [->|Hne].
      * rewrite (filter_length_snoc _), decide_True by done.
        rewrite (Forall_filter_nil _ (c_campususer s)); first done.
        by apply Forall_forall.
      * rewrite (filter_length_snoc _), decide_False.
        { specialize (Huniq e). unfold with_email in Huniq. lia. }
        rewrite Hce. congruence.
    + unfold with_email. rewrite (filter_length_snoc _), decide_True by done.
      rewrite (Forall_filter_nil _ (c_campususer s)); first done.
      by apply Forall_forall.
  - apply (filter_singleton_split _) in Hf as (l1 & l2 & Hs & Hl1 & Hl2 & Hu).
    rewrite Hs in Hids. apply ids_unique_split in Hids as (i & Hi & Hl1i).
    pose proof Hl1 as Hl1'. rewrite Forall_forall in Hl1'.
    eexists _, _, _. split.
    { by apply (demo_login_existing now p s tr l1 l2 u i). }
    rewrite get_coll_set_coll_users.
    destruct (matches_payload_union now p u) as (_ & _ & He & _).
    split.
    + intros e. unfold with_email.
      rewrite (key_unique_replace "email" (VStr (dl_email p)) l1 l2 u) by done.
      rewrite <- Hs. apply Huniq.
    + unfold with_email. by rewrite (filter_split_singleton _ l1 l2).
Qed.

(** X20: [set_manual_percentage] keeps rolls unique: on a store keeping the
    [_id] guarantee in which no two overrides share a roll, whatever the
    value and the outcome, afterwards still no two overrides share a
    roll. *)
Theorem set_manual_percentage_keeps_rolls_unique (now : datetime)
    (p : ManualPercentageRequest) (s : Store) (tr : list op) :
  ids_unique (c_attendanceoverride s) →
  rolls_unique (c_attendanceoverride s) →
  ∃ (o : outcome (option dict)) (s' : Store) (tr' : list op),
    set_manual_percentage now p (configured s tr) = (o, configured s' tr')
    ∧ rolls_unique (c_attendanceoverride s').
Proof.
  intros Hids Huniq.
  destruct (override_for (mp_roll p) s) as [u|] eqn:Hov.
  - unfold override_for in Hov.
    apply (head_filter_Some _) in Hov as (l1 & l2 & Hs & Hl1 & Hu).
    rewrite Hs in Hids. apply ids_unique_split in Hids as (i & Hi & Hl1i).
    rewrite Forall_forall in Hl1.
    eexists _, _, _. split.
    { by apply (set_manual_percentage_existing now p s tr l1 l2 u i). }
    cbn [set_coll c_attendanceoverride].
    destruct (ManualPercentageRequest_dump_lookup p u) as (Hr & _ & _).
    intros r. unfold with_roll.
    rewrite (key_unique_replace "roll" (VStr (mp_roll p)) l1 l2 u) by done.
    rewrite <- Hs. apply Huniq.
  - destruct (in_range (mp_manual_percentage p)) eqn:Hin.
    + unfold override_for in Hov. apply (head_filter_None _) in Hov.
      rewrite Forall_forall in Hov.
      destruct (set_manual_percentage_new now p s tr Hov Hin) as [r Hrun].
      eexists _, _, _. split; first exact Hrun.
      cbn [set_coll c_attendanceoverride].
      assert (Hcr : created now attendanceoverride
                      (ManualPercentageRequest_dump p) s !! "roll"
                    = Some (VStr (mp_roll p))) by done.
      intros r'. unfold with_roll. rewrite (filter_length_snoc _).
      destruct (decide (r' = mp_roll p)) as [->|Hne].
      * rewrite decide_True by done.
        rewrite (Forall_filter_nil _ (c_attendanceoverride s)); first done.
        by apply Forall_forall.
      * rewrite decide_False.
        { specialize (Huniq r'). unfold with_roll in Huniq. lia. }
        rewrite Hcr. congruence.
    + eexists _, _, _. split; last exact Huniq.
      by apply set_manual_percentage_out_of_range.
Qed.

End CampusPortal.

(** * Concrete runs *)

(** ** Arithmetic of the summary *)

Example round2_below_tie :
  round2 (fdiv (of_Z 2675) (of_Z 1000)) = fdiv (of_Z 267) (of_Z 100).
Proof. vm_compute. reflexivity. Qed.

Example round2_exact_tie :
  round2 (fdiv (of_Z 1) (of_Z 8)) = fdiv (of_Z 12) (of_Z 100).
Proof. vm_compute. reflexivity. Qed.

Example round2_small_negative :
  round2 (fdiv (of_Z (-1)) (of_Z 1000)) = S754_zero true.
Proof. vm_compute. reflexivity. Qed.

Example true_quotient_third : true_quotient 1 3 = fdiv (of_Z 1) (of_Z 3).
Proof. vm_compute. reflexivity. Qed.

Example ObjectId_of_str_too_short : ObjectId_of_str "1234" = None.
Proof. reflexivity. Qed.

Example ObjectId_of_str_not_hex :
  ObjectId_of_str "00000000000000000000000g" = None.
Proof. reflexivity. Qed.

(** The spec's example: R1 marked present three times and absent once, in
    separate calls, has the summary 3, 1, 75.0. *)
Example summary_three_of_four :
  (let mark st :=
     mark_attendance now0
       (mk_AttendanceMarkRequest (mk_date 2024 3 9) [mk_AttendanceMark "R1" st])
   in
   (mark present ;; mark present ;; mark present ;; mark absent ;;
    attendance_summary "R1") (configured empty_store [])).1
  = Return (mk_Summary "R1" 3 1 (of_Z 75)).
Proof. vm_compute. reflexivity. Qed.

(** The spec's example: once an override of 42.5 is set, the summary shows
    42.5 whatever the records say. *)
Example summary_with_override :
  (let mark st :=
     mark_attendance now0
       (mk_AttendanceMarkRequest (mk_date 2024 3 9) [mk_AttendanceMark "R1" st])
   in
   (mark present ;; mark absent ;;
    set_manual_percentage sample_float_repr now0
      (mk_ManualPercentageRequest "R1" (fdiv (of_Z 85) (of_Z 2))) ;;
    attendance_summary "R1") (configured empty_store [])).1
  = Return (mk_Summary "R1" 1 1 (fdiv (of_Z 85) (of_Z 2))).
Proof. vm_compute. reflexivity. Qed.

(** ** Manual percentage *)

(** C2, evaluated on the code: 150 is outside [0, 100]; with no override for
    the roll the request fails in [AttendanceOverride] validation and
    nothing is written, but with an override already stored the update path
    writes 150 into it without any validation. *)
Theorem set_manual_percentage_skips_validation
    (float_repr : float → string) (now : datetime) :
  fleb (mp_manual_percentage request_150) hundred = false
  ∧ set_manual_percentage float_repr now request_150 (configured empty_store []) =
      (Raise (ValidationError "AttendanceOverride"),
       configured empty_store [OpFindOne attendanceoverride])
  ∧ (set_manual_percentage float_repr now request_150
       (configured overrides_store [])).2 =
      configured (mk_store [] [] [] [override_150])
        [OpFindOne attendanceoverride; OpUpdateOne attendanceoverride;
         OpFindOne attendanceoverride].
Proof. repeat split; vm_compute; reflexivity. Qed.

(** ** Demo login *)

(** C3 refuted at a concrete input: Ann's stored [mobile] is 555-0101, her
    login supplies only [role], [name] and [email], and afterwards her
    record holds a null [mobile]: the record was not field-patched. *)
Lemma demo_login_overwrites_omitted_mobile :
  supplied_fields ann_login = ["role"; "name"; "email"]
  ∧ coll_find_one [("email", VStr (dl_email ann_login))]
                  (c_campususer users_store) = Some ann
  ∧ ann !! "mobile" = Some (VStr "555-0101")
  ∧ (demo_login sample_float_repr now0 ann_login (configured users_store [])).2 =
      configured (mk_store [bob; ann_after] [] [] [])
        [OpFindOne campususer; OpUpdateOne campususer; OpFindOne campususer]
  ∧ ann_after !! "mobile" = Some VNone
  ∧ ¬ field_patched ann_login ann ann_after.
Proof.
  repeat split; try (vm_compute; reflexivity).
  intros Hpatch. specialize (Hpatch "mobile").
  assert (Hk : ann_after !! "mobile" = ann !! "mobile").
  { apply Hpatch; last done. cbn [supplied_fields ann_login dl_mobile dl_roll app].
    rewrite !not_elem_of_cons. repeat split; try done. apply not_elem_of_nil. }
  vm_compute in Hk. discriminate Hk.
Qed.

Lemma demo_login_sets_payload_fields_witness :
  ∃ (r : option dict) (u' : dict),
    demo_login sample_float_repr now_micro ann_login (configured users_store []) =
      (Return r,
       configured (set_coll campususer ([bob] ++ u' :: []) users_store)
                  ([] ++ [OpFindOne campususer; OpUpdateOne campususer;
                          OpFindOne campususer]))
    ∧ matches_payload ann_login u'
    ∧ u' !! "updated_at" = Some (VDatetime (to_millis now_micro))
    ∧ ∀ k : string, k ∉ login_fields → u' !! k = ann !! k.
Proof.
  apply (demo_login_sets_payload_fields sample_float_repr now_micro ann_login
           users_store [] [bob] [] ann (VOid 1%N)).
  - reflexivity.
  - intros d Hd. apply list_elem_of_singleton in Hd. subst d.
    vm_compute. discriminate.
  - reflexivity.
  - reflexivity.
  - intros d Hd. apply list_elem_of_singleton in Hd. subst d.
    vm_compute. discriminate.
Defined.

Lemma demo_login_twice_witness :
  ∃ (r1 : option dict) (w1 : World) (s2 : Store) (tr2 : list op) (u : dict),
    demo_login sample_float_repr now0 ann_login (configured users_store []) =
      (Return r1, w1)
    ∧ demo_login sample_float_repr now1 ann_relogin w1 =
        (Return (serialize_id sample_float_repr (Some u)), configured s2 tr2)
    ∧ with_email (dl_email ann_relogin) (c_campususer s2) = [u]
    ∧ matches_payload ann_relogin u.
Proof.
  apply (demo_login_twice sample_float_repr now0 now1 ann_login ann_relogin
           users_store []).
  - reflexivity.
  - split.
    + repeat constructor; by eexists.
    + vm_compute. repeat constructor; intros Hin; inversion Hin; subst;
        try discriminate; match goal with H : _ ∈ [] |- _ => inversion H end.
  - vm_compute. lia.
Defined.

(** ** Events and identifiers *)

Lemma event_not_found_witness :
  update_event sample_float_repr "000000000000000000000007" fair_update
               (configured events_store []) =
    (Raise (HTTPException 404 "Event not found"),
     configured events_store ([] ++ [OpUpdateOne event]))
  ∧ delete_event "000000000000000000000007" (configured events_store []) =
      (Raise (HTTPException 404 "Event not found"),
       configured events_store ([] ++ [OpDeleteOne event])).
Proof.
  apply (event_not_found sample_float_repr "000000000000000000000007" 7%N
           fair_update events_store []).
  - vm_compute. reflexivity.
  - intros d Hd. apply list_elem_of_singleton in Hd. subst d.
    vm_compute. discriminate.
Defined.

(** C10 refuted at a concrete input: [PUT /users/not-an-id] with no field
    supplied is answered by [{"updated": False}], not by a 400. *)
Lemma update_user_invalid_id_no_fields :
  ObjectId_parse "not-an-id" = None
  ∧ update_user sample_float_repr now0 "not-an-id" no_fields
                (configured users_store []) =
      (Return (Some unchanged_ack), configured users_store []).
Proof. split; reflexivity. Qed.

Lemma invalid_id_rejected_witness :
  let fields := mk_UpdateUserRequest (Some "Ann B") None None None in
  update_user sample_float_repr now0 "not-an-id" fields
              (configured users_store []) =
    (Raise (HTTPException 400 "Invalid ID format"), configured users_store [])
  ∧ update_event sample_float_repr "not-an-id" fair_update
                 (configured users_store []) =
      (Raise (HTTPException 400 "Invalid ID format"), configured users_store [])
  ∧ delete_event "not-an-id" (configured users_store []) =
      (Raise (HTTPException 400 "Invalid ID format"), configured users_store [])
  ∧ update_user sample_float_repr now0 "not-an-id" no_fields
                (configured users_store []) =
      (Return (Some unchanged_ack), configured users_store []).
Proof.
  apply (invalid_id_rejected sample_float_repr now0 "not-an-id"
           (mk_UpdateUserRequest (Some "Ann B") None None None) fair_update
           users_store []).
  - reflexivity.
  - vm_compute. discriminate.
Defined.

(** ** Further concrete runs *)

Lemma serialize_id_external_witness :
  serialize_id sample_float_repr (Some fair) = Some fair_external
  ∧ external_form fair_external.
Proof.
  split; first (vm_compute; reflexivity).
  apply (serialize_id_external sample_float_repr fair).
  vm_compute. reflexivity.
Defined.

Lemma oid_of_str_roundtrip_witness :
  oid (oid_str 255%N) (configured events_store []) =
    (Return (VOid 255%N), configured events_store []).
Proof. apply (oid_of_str_roundtrip 255%N). vm_compute. reflexivity. Defined.

Lemma update_user_patches_fields_witness :
  ∃ u' : dict,
    update_user sample_float_repr now_micro ann_id ann_new_mobile
                (configured users_store []) =
      (Return (serialize_id sample_float_repr (Some u')),
       configured (set_coll campususer ([bob] ++ u' :: []) users_store)
                  ([] ++ [OpUpdateOne campususer; OpFindOne campususer]))
    ∧ u' !! "updated_at" = Some (VDatetime (to_millis now_micro))
    ∧ u' !! "name" = patched (uu_name ann_new_mobile) (ann !! "name")
    ∧ u' !! "email" = patched (uu_email ann_new_mobile) (ann !! "email")
    ∧ u' !! "mobile" = patched (uu_mobile ann_new_mobile) (ann !! "mobile")
    ∧ u' !! "roll" = patched (uu_roll ann_new_mobile) (ann !! "roll")
    ∧ ∀ k : string, k ∉ user_fields → u' !! k = ann !! k.
Proof.
  apply (update_user_patches_fields sample_float_repr now_micro ann_id 1%N
           ann_new_mobile users_store [] [bob] [] ann).
  - vm_compute. reflexivity.
  - vm_compute. discriminate.
  - reflexivity.
  - reflexivity.
  - intros d Hd. apply list_elem_of_singleton in Hd. subst d.
    vm_compute. discriminate.
Defined.

Lemma update_user_not_found_witness :
  update_user sample_float_repr now0 unknown_id ann_new_mobile
              (configured users_store []) =
    (Raise (HTTPException 404 "User not found"),
     configured users_store ([] ++ [OpUpdateOne campususer])).
Proof.
  apply (update_user_not_found sample_float_repr now0 unknown_id 7%N).
  - vm_compute. reflexivity.
  - vm_compute. discriminate.
  - intros d Hd. apply elem_of_cons in Hd as [->|Hd];
      [ | apply list_elem_of_singleton in Hd; subst d ];
      vm_compute; discriminate.
Defined.

Lemma update_event_replaces_fields_witness :
  ∃ u' : dict,
    update_event sample_float_repr ann_id fair_moved
                 (configured events_store []) =
      (Return (serialize_id sample_float_repr (Some u')),
       configured (set_coll event ([] ++ u' :: []) events_store)
                  ([] ++ [OpUpdateOne event; OpFindOne event]))
    ∧ u' !! "title" = Some (VStr (ev_title fair_moved))
    ∧ u' !! "description" = Some (opt_str (ev_description fair_moved))
    ∧ u' !! "date" = Some (VDatetime (to_millis (ev_date fair_moved)))
    ∧ u' !! "location" = Some (opt_str (ev_location fair_moved))
    ∧ u' !! "created_by_role"
      = Some (VStr (role_str (ev_created_by_role fair_moved)))
    ∧ ∀ k : string, k ∉ event_fields → u' !! k = fair !! k.
Proof.
  apply (update_event_replaces_fields sample_float_repr ann_id 1%N fair_moved
           events_store [] [] [] fair).
  - vm_compute. reflexivity.
  - reflexivity.
  - reflexivity.
  - intros d Hd. inversion Hd.
Defined.

Lemma delete_event_removes_record_witness :
  delete_event ann_id (configured two_events_store []) =
    (Return deleted_ack,
     configured (set_coll event ([] ++ [gala]) two_events_store)
                ([] ++ [OpDeleteOne event]))
  ∧ (∀ tr', delete_event ann_id
              (configured (set_coll event ([] ++ [gala]) two_events_store) tr') =
              (Raise (HTTPException 404 "Event not found"),
               configured (set_coll event ([] ++ [gala]) two_events_store)
                          (tr' ++ [OpDeleteOne event])))
  ∧ (∀ tr' p, update_event sample_float_repr ann_id p
                (configured (set_coll event ([] ++ [gala]) two_events_store) tr') =
                (Raise (HTTPException 404 "Event not found"),
                 configured (set_coll event ([] ++ [gala]) two_events_store)
                            (tr' ++ [OpUpdateOne event]))).
Proof.
  apply (delete_event_removes_record sample_float_repr ann_id 1%N
           two_events_store [] [] [gala] fair).
  - vm_compute. reflexivity.
  - reflexivity.
  - reflexivity.
  - intros d Hd. apply list_elem_of_singleton in Hd. subst d.
    vm_compute. discriminate.
Defined.

Lemma create_event_then_delete_witness :
  let e := <["_id" := VOid (fresh_oid (c_event events_store))]>
             (stored (EventCreateRequest_dump fair_moved)) in
  let s1 := set_coll event (c_event events_store ++ [e]) events_store in
  let tr1 := [] ++ [OpInsertOne event; OpFindOne event] in
  create_event sample_float_repr now0 fair_moved (configured events_store []) =
    (Return (serialize_id sample_float_repr (Some e)), configured s1 tr1)
  ∧ delete_event (id_str e) (configured s1 tr1) =
      (Return deleted_ack, configured events_store (tr1 ++ [OpDeleteOne event])).
Proof.
  apply (create_event_then_delete sample_float_repr now0 fair_moved
           events_store []).
  vm_compute. reflexivity.
Defined.

Lemma demo_login_inserts_new_witness :
  let u := <["_id" := VOid (fresh_oid (c_campususer users_store))]>
             (login_data (to_millis now_micro) cleo_login) in
  demo_login sample_float_repr now_micro cleo_login (configured users_store []) =
    (Return (serialize_id sample_float_repr (Some u)),
     configured (set_coll campususer (c_campususer users_store ++ [u]) users_store)
                ([] ++ [OpFindOne campususer; OpInsertOne campususer;
                        OpFindOne campususer])).
Proof.
  apply (demo_login_inserts_new sample_float_repr now_micro cleo_login
           users_store []).
  - intros d Hd. apply elem_of_cons in Hd as [->|Hd];
      [ | apply list_elem_of_singleton in Hd; subst d ];
      vm_compute; discriminate.
  - vm_compute. reflexivity.
Defined.

Lemma set_manual_percentage_rejects_new_witness :
  set_manual_percentage sample_float_repr now0 request_nan
                        (configured empty_store []) =
    (Raise (ValidationError "AttendanceOverride"),
     configured empty_store ([] ++ [OpFindOne attendanceoverride])).
Proof.
  apply (set_manual_percentage_rejects_new sample_float_repr now0 request_nan
           empty_store []).
  - reflexivity.
  - reflexivity.
Defined.

Lemma overrides_store_ids_unique : ids_unique (c_attendanceoverride overrides_store).
Proof.
  split.
  - repeat constructor. by eexists.
  - vm_compute. repeat constructor. intros Hin. inversion Hin.
Defined.

Lemma set_manual_percentage_then_summary_witness :
  ∃ (r : option dict) (s' : Store) (tr' : list op),
    set_manual_percentage sample_float_repr now0
      (mk_ManualPercentageRequest "R1" (of_Z 150))
      (configured overrides_store []) = (Return r, configured s' tr')
    ∧ ∀ tr'' : list op,
        (attendance_summary "R1" (configured s' tr'')).1 =
          Return (mk_Summary "R1"
                    (attendance_count "R1" present overrides_store)
                    (attendance_count "R1" absent overrides_store)
                    (round2 (of_Z 150))).
Proof.
  apply (set_manual_percentage_then_summary sample_float_repr now0 "R1"
           (of_Z 150) overrides_store []).
  - exact overrides_store_ids_unique.
  - left. vm_compute. by eexists.
Defined.

Lemma sample_bson_compare_total : compare_total sample_bson_compare.
Proof.
  intros a b. unfold sample_bson_compare.
  destruct a as [[]|], b as [[]|]; try discriminate.
  intros Hgt. rewrite N.compare_antisym, Hgt. discriminate.
Defined.

Lemma listings_sorted_witness :
  (∃ docs : list dict,
     (list_events sample_float_repr sample_bson_compare 5
        (configured two_events_store [])).1 =
       Return ((λ d, serialize_id sample_float_repr (Some d)) <$> docs)
     ∧ Sorted (doc_le sample_bson_compare "date" true) docs)
  ∧ (∃ docs : list dict,
       (recent_attendance sample_float_repr sample_bson_compare 5
          (configured two_events_store [])).1 =
         Return ((λ d, serialize_id sample_float_repr (Some d)) <$> docs)
       ∧ Sorted (doc_le sample_bson_compare "attendance_date" false) docs).
Proof.
  apply (listings_sorted sample_float_repr sample_bson_compare 5
           two_events_store []).
  exact sample_bson_compare_total.
Defined.

Example list_events_by_date :
  (list_events sample_float_repr sample_bson_compare 1
     (configured two_events_store [])).1 =
    Return [serialize_id sample_float_repr (Some gala)].
Proof. vm_compute. reflexivity. Qed.

Lemma users_store_ids_unique : ids_unique (c_campususer users_store).
Proof.
  split.
  - repeat constructor; by eexists.
  - vm_compute. repeat constructor; intros Hin; inversion Hin; subst;
      try discriminate; match goal with H : _ ∈ [] |- _ => inversion H end.
Defined.

Lemma users_store_emails_unique : emails_unique (c_campususer users_store).
Proof.
  intros e. unfold with_email, users_store, c_campususer.
  rewrite !filter_cons, filter_nil.
  destruct (decide (bob !! "email" = Some (VStr e))) as [H1|_],
           (decide (ann !! "email" = Some (VStr e))) as [H2|_];
    cbn [length]; try lia.
  vm_compute in H1, H2. congruence.
Defined.

Lemma demo_login_keeps_emails_unique_witness :
  ∃ (r : option dict) (s' : Store) (tr' : list op),
    demo_login sample_float_repr now0 ann_relogin (configured users_store []) =
      (Return r, configured s' tr')
    ∧ emails_unique (c_campususer s')
    ∧ length (with_email (dl_email ann_relogin) (c_campususer s')) = 1%nat.
Proof.
  apply (demo_login_keeps_emails_unique sample_float_repr now0 ann_relogin
           users_store []).
  - exact users_store_ids_unique.
  - exact users_store_emails_unique.
Defined.

Lemma set_manual_percentage_keeps_rolls_unique_witness :
  ∃ (o : outcome (option dict)) (s' : Store) (tr' : list op),
    set_manual_percentage sample_float_repr now0 request_150
                          (configured overrides_store []) =
      (o, configured s' tr')
    ∧ rolls_unique (c_attendanceoverride s').
Proof.
  apply (set_manual_percentage_keeps_rolls_unique sample_float_repr now0
           request_150 overrides_store []).
  - exact overrides_store_ids_unique.
  - intros r. unfold with_roll, overrides_store, c_attendanceoverride.
    rewrite filter_cons, filter_nil. destruct (decide _); cbn [length]; lia.
Defined.

Lemma update_user_duplicates_email_witness :
  ∃ (r : option dict) (s' : Store) (tr' : list op),
    update_user sample_float_repr now0 ann_id
      (mk_UpdateUserRequest None (Some "bob@campus.edu") None None)
      (configured users_store []) = (Return r, configured s' tr')
    ∧ (2 ≤ length (with_email "bob@campus.edu" (c_campususer s')))%nat.
Proof.
  apply (update_user_duplicates_email sample_float_repr now0 ann_id 1%N
           (mk_UpdateUserRequest None (Some "bob@campus.edu") None None)
           "bob@campus.edu" users_store [] [bob] [] ann bob).
  - vm_compute. reflexivity.
  - reflexivity.
  - reflexivity.
  - reflexivity.
  - intros d Hd. apply list_elem_of_singleton in Hd. subst d.
    vm_compute. discriminate.
  - apply elem_of_app. left. by apply list_elem_of_singleton.
  - reflexivity.
Defined.

(** ** Further concrete runs on identifiers and clock readings *)

Example to_millis_now_micro :
  to_millis now_micro = mk_datetime (mk_date 2024 3 9) 14 5 0 123000.
Proof. reflexivity. Qed.

(** An update stores the clock reading to the millisecond, and the answer
    shows it so. *)
Example update_user_stores_milliseconds :
  ∃ r : dict,
    (update_user sample_float_repr now_micro ann_id ann_new_mobile
       (configured users_store [])).1 = Return (Some r)
    ∧ r !! "updated_at" = Some (VStr "2024-03-09T14:05:00.123000").
Proof. eexists. split; vm_compute; reflexivity. Qed.

(** [ObjectId] accepts a 24-character string in which whitespace separates
    pairs of digits; the object it builds equals no stored identifier, so
    the handlers go on to the store and answer 404. *)
Example spaced_id_accepted :
  ObjectId_parse spaced_id = Some (VOidBytes (replicate 10 0%N))
  ∧ delete_event spaced_id (configured events_store []) =
      (Raise (HTTPException 404 "Event not found"),
       configured events_store [OpDeleteOne event]).
Proof. split; vm_compute; reflexivity. Qed.

(** C4 refuted at a concrete input: once [update_user] has given Bob the
    email Ann has (the store still keeps the [_id] guarantee), two demo
    logins with that email return and leave two records carrying it. *)
Lemma demo_login_twice_leaves_two :
  let w0 := (update_user sample_float_repr now0 bob_id bob_takes_ann_email
               (configured users_store [])).2 in
  let r1 := demo_login sample_float_repr now0 ann_login w0 in
  let r2 := demo_login sample_float_repr now1 ann_relogin r1.2 in
  dl_email ann_login = dl_email ann_relogin
  ∧ ids_unique (world_users w0)
  ∧ length (with_email (dl_email ann_relogin) (world_users w0)) = 2%nat
  ∧ (∃ a1 a2, r1.1 = Return a1 ∧ r2.1 = Return a2)
  ∧ length (with_email (dl_email ann_relogin) (world_users r2.2)) = 2%nat.
Proof.
  repeat split; try (vm_compute; reflexivity).
  - repeat constructor; by eexists.
  - vm_compute. repeat constructor; intros Hin; inversion Hin; subst;
      try discriminate; match goal with H : _ ∈ [] |- _ => inversion H end.
  - eexists _, _. split; vm_compute; reflexivity.
Qed.
